(** * DX12_FW: the [Window] helper (Window.h / Window.cpp)

    A shallow embedding of class [Window]: window-class registration, window
    creation, the tearing-support query, swap-chain creation and the
    borderless-fullscreen toggle.  The class is a thin sequencer of Win32 and
    DXGI calls, so the embedding is a state-and-error monad over

    - the object's fields ([g_Fullscreen], [g_WindowRect], [g_hWnd]),
    - the process (the function-local static of [RegisterWindowClass], the
      platform's own state), and
    - the chronological trace of platform calls with their responses.

    The platform is a parameter: any deterministic handler of the calls. *)

From Stdlib Require Import ZArith List String Bool Lia.
Import ListNotations.
Open Scope Z_scope.

(** ** Machine integers *)

(** [int] and [LONG]: 32-bit two's complement, wrap-around written out. *)
Module Int32.
Definition half : Z := 2 ^ 31.
Definition modulus : Z := 2 ^ 32.
Definition wrap (z : Z) : Z := (z + half) mod modulus - half.
Definition in_range (z : Z) : Prop := - half <= z < half.
Definition add (a b : Z) : Z := wrap (a + b).
Definition sub (a b : Z) : Z := wrap (a - b).
(** C++ [/] on [int] truncates toward zero. *)
Definition div (a b : Z) : Z := wrap (Z.quot a b).
End Int32.

(** [UINT] and [DWORD]: 32-bit unsigned. *)
Module UInt32.
Definition modulus : Z := 2 ^ 32.
Definition wrap (z : Z) : Z := z mod modulus.
Definition in_range (z : Z) : Prop := 0 <= z < modulus.
End UInt32.

(** ** Platform types and header constants (Windows SDK values) *)

Definition HANDLE := Z.
Definition HWND := HANDLE.
Definition HINSTANCE := HANDLE.
Definition HMONITOR := HANDLE.
Definition HICON := HANDLE.
Definition HCURSOR := HANDLE.
Definition ATOM := Z.
Definition BOOL := Z.
Definition HRESULT := Z.
(** A [ComPtr<T>] is the raw interface pointer it holds; [0] is the empty one. *)
Definition ComPtr := Z.

Definition NULL : Z := 0.
Definition FALSE : BOOL := 0.
Definition TRUE : BOOL := 1.

Definition SUCCEEDED (hr : HRESULT) : bool := 0 <=? hr.
Definition FAILED (hr : HRESULT) : bool := hr <? 0.

Module WinUser.
Definition WS_OVERLAPPED : Z := 0x00000000.
Definition WS_BORDER : Z := 0x00800000.
Definition WS_DLGFRAME : Z := 0x00400000.
Definition WS_CAPTION : Z := 0x00C00000.
Definition WS_SYSMENU : Z := 0x00080000.
Definition WS_THICKFRAME : Z := 0x00040000.
Definition WS_SIZEBOX : Z := WS_THICKFRAME.
Definition WS_MINIMIZEBOX : Z := 0x00020000.
Definition WS_MAXIMIZEBOX : Z := 0x00010000.
Definition WS_OVERLAPPEDWINDOW : Z :=
  Z.lor WS_OVERLAPPED (Z.lor WS_CAPTION (Z.lor WS_SYSMENU
    (Z.lor WS_THICKFRAME (Z.lor WS_MINIMIZEBOX WS_MAXIMIZEBOX)))).
Definition CS_VREDRAW : Z := 0x0001.
Definition CS_HREDRAW : Z := 0x0002.
Definition COLOR_WINDOW : Z := 5.
Definition IDC_ARROW : Z := 32512.
Definition SM_CXSCREEN : Z := 0.
Definition SM_CYSCREEN : Z := 1.
Definition GWL_STYLE : Z := -16.
Definition HWND_TOP : HWND := 0.
Definition HWND_BOTTOM : HWND := 1.
Definition HWND_TOPMOST : HWND := -1.
Definition HWND_NOTOPMOST : HWND := -2.
Definition SWP_NOACTIVATE : Z := 0x0010.
Definition SWP_FRAMECHANGED : Z := 0x0020.
Definition SW_NORMAL : Z := 1.
Definition SW_MAXIMIZE : Z := 3.
Definition SW_SHOW : Z := 5.
Definition MONITOR_DEFAULTTONEAREST : Z := 0x00000002.
End WinUser.

Module Dxgi.
Definition DXGI_CREATE_FACTORY_DEBUG : Z := 0x01.
Definition DXGI_FORMAT_R8G8B8A8_UNORM : Z := 28.
Definition DXGI_USAGE_RENDER_TARGET_OUTPUT : Z := 0x00000020.
Definition DXGI_SCALING_STRETCH : Z := 0.
Definition DXGI_SWAP_EFFECT_FLIP_SEQUENTIAL : Z := 3.
Definition DXGI_SWAP_EFFECT_FLIP_DISCARD : Z := 4.
Definition DXGI_ALPHA_MODE_UNSPECIFIED : Z := 0.
Definition DXGI_SWAP_CHAIN_FLAG_ALLOW_TEARING : Z := 2048.
Definition DXGI_FEATURE_PRESENT_ALLOW_TEARING : Z := 0.
Definition DXGI_MWA_NO_ALT_ENTER : Z := 2.
Definition DXGI_ERROR_INVALID_CALL : HRESULT := Int32.wrap 0x887A0001.
Definition S_OK : HRESULT := 0.
Definition E_NOINTERFACE : HRESULT := Int32.wrap 0x80004002.
End Dxgi.

Import WinUser Dxgi.

Record RECT : Type := mkRECT { left : Z; top : Z; right : Z; bottom : Z }.

(** A [RECT] as the platform stores it: four [LONG]s. *)
Definition RECT_wf (r : RECT) : Prop :=
  Int32.in_range (left r) /\ Int32.in_range (top r) /\
  Int32.in_range (right r) /\ Int32.in_range (bottom r).

(** The function the class descriptor points at; [WndProc] is only declared in
    Window.cpp, so it is a symbol here. *)
Inductive WNDPROC : Type := AddressOf_WndProc.

Record WNDCLASSEXW : Type := mkWNDCLASSEXW {
  wc_cbSize : Z;
  wc_style : Z;
  lpfnWndProc : WNDPROC;
  cbClsExtra : Z;
  cbWndExtra : Z;
  wc_hInstance : HINSTANCE;
  hIcon : HICON;
  hCursor : HCURSOR;
  hbrBackground : Z;
  lpszMenuName : Z;
  lpszClassName : string;
  hIconSm : HICON
}.

(** The part of [MONITORINFOEX] that the platform fills in ([szDevice] is never
    read by the program). *)
Record MONITORINFOEX : Type := mkMONITORINFOEX {
  mi_cbSize : Z;
  rcMonitor : RECT;
  rcWork : RECT;
  mi_dwFlags : Z
}.

Record DXGI_SAMPLE_DESC : Type := mkSampleDesc { Count : Z; Quality : Z }.

Record DXGI_SWAP_CHAIN_DESC1 : Type := mkSwapChainDesc {
  Width : Z;
  Height : Z;
  Format : Z;
  Stereo : BOOL;
  SampleDesc : DXGI_SAMPLE_DESC;
  BufferUsage : Z;
  BufferCount : Z;
  Scaling : Z;
  SwapEffect : Z;
  AlphaMode : Z;
  Flags : Z
}.

(** Window class name, Window.h. *)
Definition WINDOW_CLASS_NAME : string := "DX12RenderWindowClass".

(** ** Build configuration

    The preprocessor symbols the translation unit depends on: [NDEBUG] turns
    [assert] into nothing (<cassert>), [_DEBUG] selects the debug factory flag
    in [CreateSwapChain], [_WIN64] fixes [sizeof(WNDCLASSEX)].  The
    generic-text names ([SetWindowLong], [GetMonitorInfo], [MONITORINFOEX],
    [LoadIcon], [LoadCursor]) are taken in their wide form, like the explicit
    [...W] calls next to them. *)
Record BuildConfig : Type := mkBuildConfig {
  NDEBUG : bool;
  _DEBUG : bool;
  _WIN64 : bool
}.

Definition sizeof_WNDCLASSEX (cfg : BuildConfig) : Z :=
  if _WIN64 cfg then 80 else 48.
Definition sizeof_MONITORINFOEX : Z := 104.
Definition sizeof_BOOL : Z := 4.

(** ** Platform calls

    Every Win32 / DXGI entry point that Window.cpp calls, with the arguments
    the program passes. *)
Inductive Call : Type :=
| LoadIcon (hInstance : HINSTANCE) (lpIconName : Z)
| LoadCursor (hInstance : HINSTANCE) (lpCursorName : Z)
| RegisterClassExW (wc : WNDCLASSEXW)
| GetSystemMetrics (nIndex : Z)
| AdjustWindowRect (lpRect : RECT) (dwStyle : Z) (bMenu : BOOL)
| CreateWindowExW (dwExStyle : Z) (lpClassName lpWindowName : string)
    (dwStyle : Z) (X Y nWidth nHeight : Z) (hWndParent hMenu : HANDLE)
    (hInstance : HINSTANCE) (lpParam : Z)
| GetWindowRect (hWnd : HWND)
| SetWindowLongW (hWnd : HWND) (nIndex : Z) (dwNewLong : Z)
| MonitorFromWindow (hWnd : HWND) (dwFlags : Z)
| GetMonitorInfo (hMonitor : HMONITOR) (lpmi : MONITORINFOEX)
| SetWindowPos (hWnd hWndInsertAfter : HWND) (X Y cx cy : Z) (uFlags : Z)
| ShowWindow (hWnd : HWND) (nCmdShow : Z)
| CreateDXGIFactory1
| CreateDXGIFactory2 (Flags : Z)
| Factory4_As_Factory5 (factory4 : ComPtr)
| CheckFeatureSupport (factory5 : ComPtr) (Feature : Z)
    (FeatureSupportData : BOOL) (FeatureSupportDataSize : Z)
| CreateSwapChainForHwnd (factory : ComPtr) (pDevice : ComPtr) (hWnd : HWND)
    (pDesc : DXGI_SWAP_CHAIN_DESC1) (pFullscreenDesc pRestrictToOutput : Z)
| MakeWindowAssociation (factory : ComPtr) (hWnd : HWND) (flags : Z)
| SwapChain1_As_SwapChain4 (swapChain1 : ComPtr).

(** What a call hands back.  A [BOOL] API with an out-parameter answers
    [Some v] (nonzero, [v] written) or [None] (zero, the buffer untouched); an
    [HRESULT] API with an out-parameter answers the code and the contents of
    the buffer after the call. *)
Definition Ret (c : Call) : Type :=
  match c with
  | LoadIcon _ _ => HICON
  | LoadCursor _ _ => HCURSOR
  | RegisterClassExW _ => ATOM
  | GetSystemMetrics _ => Z
  | AdjustWindowRect _ _ _ => option RECT
  | CreateWindowExW _ _ _ _ _ _ _ _ _ _ _ _ => HWND
  | GetWindowRect _ => option RECT
  | SetWindowLongW _ _ _ => Z
  | MonitorFromWindow _ _ => HMONITOR
  | GetMonitorInfo _ _ => option MONITORINFOEX
  | SetWindowPos _ _ _ _ _ _ _ => BOOL
  | ShowWindow _ _ => BOOL
  | CreateDXGIFactory1 => (HRESULT * ComPtr)%type
  | CreateDXGIFactory2 _ => (HRESULT * ComPtr)%type
  | Factory4_As_Factory5 _ => (HRESULT * ComPtr)%type
  | CheckFeatureSupport _ _ _ _ => (HRESULT * BOOL)%type
  | CreateSwapChainForHwnd _ _ _ _ _ _ => (HRESULT * ComPtr)%type
  | MakeWindowAssociation _ _ _ => HRESULT
  | SwapChain1_As_SwapChain4 _ => (HRESULT * ComPtr)%type
  end.

(** The host: its own state and a deterministic answer to every call. *)
Record Platform : Type := mkPlatform {
  OS : Type;
  handle : forall c : Call, OS -> Ret c * OS
}.

(** One entry of the trace: a call and the platform's answer. *)
Definition Event : Type := { c : Call & Ret c }.
Definition event (c : Call) (r : Ret c) : Event := existT Ret c r.
Definition call_of (e : Event) : Call := projT1 e.

(** ** Program state *)

(** The data members of [class Window] (Window.h, private section). *)
Record Window : Type := mkWindow {
  g_Fullscreen : bool;
  g_WindowRect : RECT;
  g_hWnd : HWND
}.

(** What all [Window] objects of a process share: the platform, the trace of
    calls made so far, and [RegisterWindowClass]'s function-local
    [static ATOM atom] ([None] until its initialiser has run). *)
Record Process (P : Platform) : Type := mkProcess {
  os : OS P;
  trace : list Event;
  atom : option ATOM
}.
Arguments mkProcess {P} _ _ _.
Arguments os {P} _.
Arguments trace {P} _.
Arguments atom {P} _.

Record World (P : Platform) : Type := mkWorld {
  this : Window;
  proc : Process P
}.
Arguments mkWorld {P} _ _.
Arguments this {P} _.
Arguments proc {P} _.

(** How a member function ends: it returns, or the process is aborted with
    a diagnostic (a failed [assert], or a failure escalated as fatal). *)
Inductive Outcome (S A : Type) : Type :=
| Returned (a : A) (s : S)
| Aborted (diagnostic : string) (s : S).
Arguments Returned {S A} _ _.
Arguments Aborted {S A} _ _.

Definition final {S A} (o : Outcome S A) : S :=
  match o with Returned _ s | Aborted _ s => s end.

Definition returned {S A} (o : Outcome S A) : option A :=
  match o with Returned a _ => Some a | _ => None end.

Definition diagnostic {S A} (o : Outcome S A) : option string :=
  match o with Aborted d _ => Some d | _ => None end.

Section Program.
Variable P : Platform.

Definition M (A : Type) : Type := World P -> Outcome (World P) A.

Definition ret {A} (a : A) : M A := fun w => Returned a w.

Definition bind {A B} (m : M A) (k : A -> M B) : M B :=
  fun w =>
    match m w with
    | Returned a w' => k a w'
    | Aborted d w' => Aborted d w'
    end.

Definition abort {A} (diagnostic : string) : M A :=
  fun w => Aborted diagnostic w.

Definition get : M Window := fun w => Returned (this w) w.
Definition put (o : Window) : M unit :=
  fun w => Returned tt (mkWorld o (proc w)).

(** Perform a platform call: the platform answers and moves on, the trace
    grows by one event. *)
Definition call (c : Call) : M (Ret c) :=
  fun w =>
    let p := proc w in
    let (r, os') := handle P c (os p) in
    Returned r (mkWorld (this w)
                        (mkProcess os' (trace p ++ [event c r]) (atom p))).

Definition get_atom : M (option ATOM) := fun w => Returned (atom (proc w)) w.
Definition set_atom (a : ATOM) : M unit :=
  fun w =>
    let p := proc w in
    Returned tt (mkWorld (this w) (mkProcess (os p) (trace p) (Some a))).
End Program.

Arguments ret {P A} _ _.
Arguments bind {P A B} _ _ _.
Arguments abort {P A} _ _.
Arguments get {P} _.
Arguments put {P} _ _.
Arguments call {P} _ _.
Arguments get_atom {P} _.
Arguments set_atom {P} _ _.

Declare Scope prog_scope.
Delimit Scope prog_scope with prog.
Notation "x <- m ;; k" := (bind m (fun x => k))
  (at level 61, m at next level, right associativity) : prog_scope.
Notation "m ;; k" := (bind m (fun _ => k))
  (at level 61, right associativity) : prog_scope.

(** ** The member functions of [Window] (Window.cpp) *)

Section WindowClass.
Variable P : Platform.
Variable cfg : BuildConfig.

Local Open Scope prog_scope.
Local Abbreviation M := (M P).

(** <cassert>: nothing under [NDEBUG]; otherwise a false condition prints
    the diagnostic and aborts. *)
Definition assert (cond : bool) (diagnostic : string) : M unit :=
  if NDEBUG cfg then ret tt
  else if cond then ret tt else abort diagnostic.

(** Modelled from the spec: [ThrowIfFailed] is defined in Helpers.h, which is
    not among the sources.  Sections 4.4 and 7: a driver/platform call that
    failed is escalated as a fatal error, signalled by aborting with a
    diagnostic rather than returning; a call that succeeded lets the
    function go on.  The spec gives no text for the diagnostic, and no
    statement below depends on the one written here. *)
Definition ThrowIfFailed (hr : HRESULT) : M unit :=
  if FAILED hr then abort "ThrowIfFailed" else ret tt.

(** [::GetWindowRect(g_hWnd, &g_WindowRect)], the result ignored: the field
    is overwritten only if the platform fills the buffer. *)
Definition GetWindowRect_to_g_WindowRect : M unit :=
  o <- get ;;
  r <- call (GetWindowRect (g_hWnd o)) ;;
  match r with
  | Some rc => put (mkWindow (g_Fullscreen o) rc (g_hWnd o))
  | None => ret tt
  end.

Definition RegisterWindowClass (hInst : HINSTANCE) : M unit :=
  icon <- call (LoadIcon hInst NULL) ;;
  cursor <- call (LoadCursor NULL IDC_ARROW) ;;
  iconSm <- call (LoadIcon hInst NULL) ;;
  let windowClass :=
    {| wc_cbSize := sizeof_WNDCLASSEX cfg;
       wc_style := Z.lor CS_HREDRAW CS_VREDRAW;
       lpfnWndProc := AddressOf_WndProc;
       cbClsExtra := 0;
       cbWndExtra := 0;
       wc_hInstance := hInst;
       hIcon := icon;
       hCursor := cursor;
       hbrBackground := COLOR_WINDOW + 1;
       lpszMenuName := NULL;
       lpszClassName := WINDOW_CLASS_NAME;
       hIconSm := iconSm |} in
  (* static ATOM atom = ::RegisterClassExW(&windowClass); *)
  initialised <- get_atom ;;
  atom <- match initialised with
          | Some a => ret a
          | None =>
              a <- call (RegisterClassExW windowClass) ;;
              set_atom a ;;
              ret a
          end ;;
  assert (0 <? atom) "atom > 0".

Definition CreateWindow (hInst : HINSTANCE) (windowTitle : string)
                        (width height : Z) : M HWND :=
  screenWidth <- call (GetSystemMetrics SM_CXSCREEN) ;;
  screenHeight <- call (GetSystemMetrics SM_CYSCREEN) ;;
  let windowRect0 := mkRECT 0 0 (Int32.wrap width) (Int32.wrap height) in
  adjusted <- call (AdjustWindowRect windowRect0 WS_OVERLAPPEDWINDOW FALSE) ;;
  let windowRect :=
    match adjusted with Some rc => rc | None => windowRect0 end in
  let windowWidth := Int32.sub (right windowRect) (left windowRect) in
  let windowHeight := Int32.sub (bottom windowRect) (top windowRect) in
  let windowX :=
    Z.max 0 (Int32.div (Int32.sub screenWidth windowWidth) 2) in
  let windowY :=
    Z.max 0 (Int32.div (Int32.sub screenHeight windowHeight) 2) in
  hWnd <- call (CreateWindowExW NULL WINDOW_CLASS_NAME windowTitle
                  WS_OVERLAPPEDWINDOW windowX windowY
                  windowWidth windowHeight NULL NULL hInst NULL) ;;
  o <- get ;;
  put (mkWindow (g_Fullscreen o) (g_WindowRect o) hWnd) ;;
  assert (negb (hWnd =? NULL)) "Failed to create window" ;;
  GetWindowRect_to_g_WindowRect ;;
  o <- get ;;
  ret (g_hWnd o).

Definition CheckTearingSupport : M bool :=
  let allowTearing := FALSE in
  f4 <- call CreateDXGIFactory1 ;;
  allowTearing <-
    (if SUCCEEDED (fst f4) then
       f5 <- call (Factory4_As_Factory5 (snd f4)) ;;
       if SUCCEEDED (fst f5) then
         r <- call (CheckFeatureSupport (snd f5)
                      DXGI_FEATURE_PRESENT_ALLOW_TEARING
                      allowTearing sizeof_BOOL) ;;
         if FAILED (fst r) then ret FALSE else ret (snd r)
       else ret allowTearing
     else ret allowTearing) ;;
  ret (allowTearing =? TRUE).

Definition CreateSwapChain (commandQueue : ComPtr)
                           (width height bufferCount : Z) : M ComPtr :=
  let createFactoryFlags :=
    if _DEBUG cfg then DXGI_CREATE_FACTORY_DEBUG else 0 in
  f <- call (CreateDXGIFactory2 createFactoryFlags) ;;
  ThrowIfFailed (fst f) ;;
  let dxgiFactory4 := snd f in
  tearing <- CheckTearingSupport ;;
  let swapChainDesc :=
    {| Width := width;
       Height := height;
       Format := DXGI_FORMAT_R8G8B8A8_UNORM;
       Stereo := FALSE;
       SampleDesc := mkSampleDesc 1 0;
       BufferUsage := DXGI_USAGE_RENDER_TARGET_OUTPUT;
       BufferCount := bufferCount;
       Scaling := DXGI_SCALING_STRETCH;
       SwapEffect := DXGI_SWAP_EFFECT_FLIP_DISCARD;
       AlphaMode := DXGI_ALPHA_MODE_UNSPECIFIED;
       Flags := if tearing then DXGI_SWAP_CHAIN_FLAG_ALLOW_TEARING else 0 |} in
  o <- get ;;
  s1 <- call (CreateSwapChainForHwnd dxgiFactory4 commandQueue (g_hWnd o)
                swapChainDesc NULL NULL) ;;
  ThrowIfFailed (fst s1) ;;
  hr <- call (MakeWindowAssociation dxgiFactory4 (g_hWnd o)
                DXGI_MWA_NO_ALT_ENTER) ;;
  ThrowIfFailed hr ;;
  s4 <- call (SwapChain1_As_SwapChain4 (snd s1)) ;;
  ThrowIfFailed (fst s4) ;;
  ret (snd s4).

Definition SetFullscreen (fullscreen : bool) : M unit :=
  o <- get ;;
  if negb (Bool.eqb (g_Fullscreen o) fullscreen) then
    put (mkWindow fullscreen (g_WindowRect o) (g_hWnd o)) ;;
    o <- get ;;
    if g_Fullscreen o then
      (* Switching to fullscreen. *)
      GetWindowRect_to_g_WindowRect ;;
      let windowStyle :=
        UInt32.wrap
          (Z.land WS_OVERLAPPEDWINDOW
             (Z.lnot (Z.lor WS_CAPTION (Z.lor WS_SYSMENU
                (Z.lor WS_THICKFRAME
                   (Z.lor WS_MINIMIZEBOX WS_MAXIMIZEBOX)))))) in
      call (SetWindowLongW (g_hWnd o) GWL_STYLE (Int32.wrap windowStyle)) ;;
      hMonitor <- call (MonitorFromWindow (g_hWnd o)
                          MONITOR_DEFAULTTONEAREST) ;;
      let monitorInfo0 :=
        mkMONITORINFOEX sizeof_MONITORINFOEX
          (mkRECT 0 0 0 0) (mkRECT 0 0 0 0) 0 in
      filled <- call (GetMonitorInfo hMonitor monitorInfo0) ;;
      let monitorInfo :=
        match filled with Some mi => mi | None => monitorInfo0 end in
      call (SetWindowPos (g_hWnd o) HWND_TOP
              (left (rcMonitor monitorInfo))
              (top (rcMonitor monitorInfo))
              (Int32.sub (right (rcMonitor monitorInfo))
                         (left (rcMonitor monitorInfo)))
              (Int32.sub (bottom (rcMonitor monitorInfo))
                         (top (rcMonitor monitorInfo)))
              (Z.lor SWP_FRAMECHANGED SWP_NOACTIVATE)) ;;
      call (ShowWindow (g_hWnd o) SW_MAXIMIZE) ;;
      ret tt
    else
      call (SetWindowLongW (g_hWnd o) GWL_STYLE WS_OVERLAPPEDWINDOW) ;;
      o <- get ;;
      call (SetWindowPos (g_hWnd o) HWND_NOTOPMOST
              (left (g_WindowRect o))
              (top (g_WindowRect o))
              (Int32.sub (right (g_WindowRect o)) (left (g_WindowRect o)))
              (Int32.sub (bottom (g_WindowRect o)) (top (g_WindowRect o)))
              (Z.lor SWP_FRAMECHANGED SWP_NOACTIVATE)) ;;
      call (ShowWindow (g_hWnd o) SW_NORMAL) ;;
      ret tt
  else ret tt.

Definition ToggleFullscreen : M unit :=
  o <- get ;;
  SetFullscreen (negb (g_Fullscreen o)).

Definition GetHWND : M HWND :=
  o <- get ;;
  ret (g_hWnd o).

Definition Show : M unit :=
  o <- get ;;
  call (ShowWindow (g_hWnd o) SW_SHOW) ;;
  ret tt.
End WindowClass.

Arguments assert {P} _ _ _ _.
Arguments ThrowIfFailed {P} _ _.
Arguments GetWindowRect_to_g_WindowRect {P} _.
Arguments RegisterWindowClass {P} _ _ _.
Arguments CreateWindow {P} _ _ _ _ _ _.
Arguments CheckTearingSupport {P} _.
Arguments CreateSwapChain {P} _ _ _ _ _ _.
Arguments SetFullscreen {P} _ _.
Arguments ToggleFullscreen {P} _.
Arguments GetHWND {P} _.
Arguments Show {P} _.

(** ** Running sequences of calls *)

(** [SetFullscreen] called again and again on the same object. *)
Fixpoint SetFullscreen_seq {P} (args : list bool) (w : World P) : World P :=
  match args with
  | [] => w
  | b :: args' => SetFullscreen_seq args' (final (SetFullscreen b w))
  end.

(** [RegisterWindowClass] called from any objects of one process, in any
    order; an abort ends the process, so nothing runs after it. *)
Fixpoint RegisterWindowClass_seq {P} (cfg : BuildConfig)
    (calls : list (Window * HINSTANCE)) (p : Process P) : Process P :=
  match calls with
  | [] => p
  | (o, hInst) :: calls' =>
      match RegisterWindowClass cfg hInst (mkWorld o p) with
      | Returned _ w => RegisterWindowClass_seq cfg calls' (proc w)
      | Aborted _ w => proc w
      end
  end.

(** A process that has not run anything yet. *)
Definition fresh_process {P} (os0 : OS P) : Process P := mkProcess os0 [] None.

(** ** Reading the trace *)

Definition is_RegisterClassExW (e : Event) : bool :=
  match call_of e with RegisterClassExW _ => true | _ => false end.

(** How many times the class descriptor was handed to the windowing system. *)
Definition registrations (t : list Event) : nat :=
  List.length (filter is_RegisterClassExW t).

(** The [HRESULT] of an event, for the calls that answer one. *)
Definition hresult_of (e : Event) : option HRESULT :=
  match e with
  | existT _ c r =>
      match c return Ret c -> option HRESULT with
      | CreateDXGIFactory1 => fun r => Some (fst r)
      | CreateDXGIFactory2 _ => fun r => Some (fst r)
      | Factory4_As_Factory5 _ => fun r => Some (fst r)
      | CheckFeatureSupport _ _ _ _ => fun r => Some (fst r)
      | CreateSwapChainForHwnd _ _ _ _ _ _ => fun r => Some (fst r)
      | MakeWindowAssociation _ _ _ => fun r => Some r
      | SwapChain1_As_SwapChain4 _ => fun r => Some (fst r)
      | _ => fun _ => None
      end r
  end.

(** The descriptions handed to [CreateSwapChainForHwnd], oldest first. *)
Definition swap_chain_descs (t : list Event) : list DXGI_SWAP_CHAIN_DESC1 :=
  flat_map (fun e => match call_of e with
                     | CreateSwapChainForHwnd _ _ _ d _ _ => [d]
                     | _ => []
                     end) t.

(** The handle that a [CreateWindowExW] event answered. *)
Definition created_handle (e : Event) : option HWND :=
  match e with
  | existT _ c r =>
      match c return Ret c -> option HWND with
      | CreateWindowExW _ _ _ _ _ _ _ _ _ _ _ _ => fun r => Some r
      | _ => fun _ => None
      end r
  end.

(** The platform failed to create the window: [CreateWindowExW] answered
    the null handle. *)
Definition creation_failed (e : Event) : bool :=
  match created_handle e with Some h => h =? NULL | None => false end.

(** The calls whose [HRESULT] [CreateSwapChain] passes to [ThrowIfFailed]. *)
Definition guarded_by_ThrowIfFailed (c : Call) : bool :=
  match c with
  | CreateDXGIFactory2 _
  | CreateSwapChainForHwnd _ _ _ _ _ _
  | MakeWindowAssociation _ _ _
  | SwapChain1_As_SwapChain4 _ => true
  | _ => false
  end.

(** An event whose failure [CreateSwapChain] escalates. *)
Definition escalated (e : Event) : bool :=
  guarded_by_ThrowIfFailed (call_of e)
  && match hresult_of e with Some hr => FAILED hr | None => false end.

(** A platform that enforces the flip-model minimum: creating a flip-model
    swap chain with fewer than two buffers fails. *)
Definition enforces_flip_minimum (P : Platform) : Prop :=
  forall factory pDevice hWnd desc pFullscreenDesc pRestrictToOutput s,
    (SwapEffect desc = DXGI_SWAP_EFFECT_FLIP_DISCARD
     \/ SwapEffect desc = DXGI_SWAP_EFFECT_FLIP_SEQUENTIAL) ->
    BufferCount desc < 2 ->
    FAILED (fst (fst (handle P (CreateSwapChainForHwnd factory pDevice hWnd
                                  desc pFullscreenDesc pRestrictToOutput) s)))
    = true.

(** The rectangle a [SetWindowPos] / [CreateWindowExW] request describes:
    position [(X, Y)], size [(cx, cy)], in [LONG] arithmetic. *)
Definition requested_rect (X Y cx cy : Z) : RECT :=
  mkRECT X Y (Int32.add X cx) (Int32.add Y cy).

(** What the platform would report now as the rectangle of the object's
    window. *)
Definition current_rect {P} (w : World P) : option RECT :=
  fst (handle P (GetWindowRect (g_hWnd (this w))) (os (proc w))).

(** Scan a stretch of trace with the rectangle captured last: a successful
    [GetWindowRect] captures, and every [SetWindowPos] with [HWND_NOTOPMOST]
    (the fullscreen exit) must request exactly the captured rectangle. *)
Fixpoint exits_restore_capture (captured : RECT) (evs : list Event) : Prop :=
  match evs with
  | [] => True
  | existT _ c r :: evs' =>
      match c return Ret c -> Prop with
      | GetWindowRect _ => fun r =>
          match r with
          | Some rc => exits_restore_capture rc evs'
          | None => exits_restore_capture captured evs'
          end
      | SetWindowPos _ after X Y cx cy _ => fun _ =>
          (after = HWND_NOTOPMOST ->
             X = left captured /\ Y = top captured /\
             cx = Int32.sub (right captured) (left captured) /\
             cy = Int32.sub (bottom captured) (top captured)) /\
          exits_restore_capture captured evs'
      | _ => fun _ => exits_restore_capture captured evs'
      end r
  end.

(** The six events of a fullscreen entry and the three of an exit, given the
    platform's answers. *)
Definition monitorInfo_after (filled : option MONITORINFOEX) : MONITORINFOEX :=
  match filled with
  | Some mi => mi
  | None => mkMONITORINFOEX sizeof_MONITORINFOEX
              (mkRECT 0 0 0 0) (mkRECT 0 0 0 0) 0
  end.

Definition enter_events (h : HWND) (saved : option RECT) (oldStyle : Z)
    (hMonitor : HMONITOR) (filled : option MONITORINFOEX)
    (moved shown : BOOL) : list Event :=
  let m := rcMonitor (monitorInfo_after filled) in
  [ event (GetWindowRect h) saved;
    event (SetWindowLongW h GWL_STYLE WS_OVERLAPPED) oldStyle;
    event (MonitorFromWindow h MONITOR_DEFAULTTONEAREST) hMonitor;
    event (GetMonitorInfo hMonitor (monitorInfo_after None)) filled;
    event (SetWindowPos h HWND_TOP (left m) (top m)
             (Int32.sub (right m) (left m)) (Int32.sub (bottom m) (top m))
             (Z.lor SWP_FRAMECHANGED SWP_NOACTIVATE)) moved;
    event (ShowWindow h SW_MAXIMIZE) shown ].

Definition exit_events (h : HWND) (r : RECT) (oldStyle : Z)
    (moved shown : BOOL) : list Event :=
  [ event (SetWindowLongW h GWL_STYLE WS_OVERLAPPEDWINDOW) oldStyle;
    event (SetWindowPos h HWND_NOTOPMOST (left r) (top r)
             (Int32.sub (right r) (left r)) (Int32.sub (bottom r) (top r))
             (Z.lor SWP_FRAMECHANGED SWP_NOACTIVATE)) moved;
    event (ShowWindow h SW_NORMAL) shown ].

Definition saved_rect (saved : option RECT) (old : RECT) : RECT :=
  match saved with Some r => r | None => old end.

(** ** A small host to run the program on

    One screen of 1920 x 1080, one window, fixed chrome insets.  It is used
    only to evaluate the member functions on concrete inputs; the theorems
    below hold for every [Platform]. *)
Module Desktop.
Record Scenario : Type := mkScenario {
  window_creation_fails : bool;
  tearing_answer : HRESULT * BOOL;
  enforces_flip_minimum : bool
}.

Record State : Type := mkState {
  alive : bool;
  rect : RECT;
  style : Z;
  show_cmd : Z;
  insert_after : HWND;
  classes : nat
}.

Definition the_window : HWND := 0x000A0001.
Definition the_monitor : HMONITOR := 0x00010001.
Definition the_factory : ComPtr := 0x00300010.
Definition the_swap_chain : ComPtr := 0x00400010.
Definition screen : RECT := mkRECT 0 0 1920 1080.
Definition work_area : RECT := mkRECT 0 0 1920 1040.

Definition boot : State := mkState false (mkRECT 0 0 0 0) 0 0 0 0%nat.

Definition answer (sc : Scenario) (c : Call) : State -> Ret c * State :=
  match c return State -> Ret c * State with
  | LoadIcon _ _ => fun s => (NULL, s)
  | LoadCursor _ _ => fun s => (0x00010003, s)
  | RegisterClassExW _ => fun s =>
      (0xC001, mkState (alive s) (rect s) (style s) (show_cmd s)
                       (insert_after s) (S (classes s)))
  | GetSystemMetrics nIndex => fun s =>
      (if nIndex =? SM_CXSCREEN then right screen
       else if nIndex =? SM_CYSCREEN then bottom screen else 0, s)
  | AdjustWindowRect rc _ _ => fun s =>
      (Some (mkRECT (left rc - 8) (top rc - 31) (right rc + 8) (bottom rc + 8)),
       s)
  | CreateWindowExW _ _ _ dwStyle X Y nWidth nHeight _ _ _ _ => fun s =>
      if window_creation_fails sc then (NULL, s)
      else (the_window,
            mkState true (requested_rect X Y nWidth nHeight) dwStyle
                    (show_cmd s) (insert_after s) (classes s))
  | GetWindowRect hWnd => fun s =>
      (if alive s && (hWnd =? the_window) then Some (rect s) else None, s)
  | SetWindowLongW _ _ dwNewLong => fun s =>
      (style s, mkState (alive s) (rect s) dwNewLong (show_cmd s)
                        (insert_after s) (classes s))
  | MonitorFromWindow _ _ => fun s => (the_monitor, s)
  | GetMonitorInfo hMonitor lpmi => fun s =>
      (if hMonitor =? the_monitor
       then Some (mkMONITORINFOEX (mi_cbSize lpmi) screen work_area 1)
       else None, s)
  | SetWindowPos _ after X Y cx cy _ => fun s =>
      (TRUE, mkState (alive s) (requested_rect X Y cx cy) (style s)
                     (show_cmd s) after (classes s))
  | ShowWindow _ nCmdShow => fun s =>
      (TRUE, mkState (alive s) (rect s) (style s) nCmdShow
                     (insert_after s) (classes s))
  | CreateDXGIFactory1 => fun s => ((S_OK, the_factory), s)
  | CreateDXGIFactory2 _ => fun s => ((S_OK, the_factory), s)
  | Factory4_As_Factory5 factory4 => fun s => ((S_OK, factory4), s)
  | CheckFeatureSupport _ _ _ _ => fun s => (tearing_answer sc, s)
  | CreateSwapChainForHwnd _ _ _ pDesc _ _ => fun s =>
      (if enforces_flip_minimum sc && (BufferCount pDesc <? 2)
       then (DXGI_ERROR_INVALID_CALL, NULL)
       else (S_OK, the_swap_chain), s)
  | MakeWindowAssociation _ _ _ => fun s => (S_OK, s)
  | SwapChain1_As_SwapChain4 swapChain1 => fun s => ((S_OK, swapChain1), s)
  end.

Definition platform (sc : Scenario) : Platform := mkPlatform State (answer sc).

(** A DXGI-like host: windows get created, tearing is supported, the
    flip-model minimum of two buffers is enforced. *)
Definition usual : Scenario := mkScenario false (S_OK, TRUE) true.
(** The same host, but it accepts any buffer count. *)
Definition lenient : Scenario := mkScenario false (S_OK, TRUE) false.
(** A host on which window creation fails. *)
Definition no_window : Scenario := mkScenario true (S_OK, TRUE) true.

Definition debug_build : BuildConfig := mkBuildConfig false true true.
Definition release_build : BuildConfig := mkBuildConfig true false true.

(** A just-constructed [Window] object in a just-started process. *)
Definition start (sc : Scenario) : World (platform sc) :=
  mkWorld (mkWindow false (mkRECT 0 0 0 0) NULL)
          (fresh_process (P := platform sc) boot).

(** The world after [CreateWindow(hInst, "Test", 1280, 720)]. *)
Definition with_window (sc : Scenario) : World (platform sc) :=
  final (CreateWindow debug_build 0x00400000 "Test" 1280 720 (start sc)).
End Desktop.

(** ** More ways to read the trace *)

(** The events that a run added: the trace of [after] without the part that
    [before] already had. *)
Definition added {P} (before after : World P) : list Event :=
  skipn (List.length (trace (proc before))) (trace (proc after)).

(** The window a call addresses, for the calls that address one. *)
Definition window_of (c : Call) : option HWND :=
  match c with
  | GetWindowRect h
  | SetWindowLongW h _ _
  | MonitorFromWindow h _
  | SetWindowPos h _ _ _ _ _ _
  | ShowWindow h _
  | CreateSwapChainForHwnd _ _ h _ _ _
  | MakeWindowAssociation _ h _ => Some h
  | _ => None
  end.

(** The class descriptors handed to [RegisterClassExW], and the class names
    windows were created with. *)
Definition class_descriptors (t : list Event) : list WNDCLASSEXW :=
  flat_map (fun e => match call_of e with
                     | RegisterClassExW wc => [wc]
                     | _ => []
                     end) t.

Definition window_class_names (t : list Event) : list string :=
  flat_map (fun e => match call_of e with
                     | CreateWindowExW _ cls _ _ _ _ _ _ _ _ _ _ => [cls]
                     | _ => []
                     end) t.

(** An event that did not report a failed [HRESULT]. *)
Definition succeeded (e : Event) : bool :=
  match hresult_of e with Some hr => SUCCEEDED hr | None => true end.

(** The value a [CheckFeatureSupport] event left in the caller's buffer. *)
Definition tearing_value_of (e : Event) : option BOOL :=
  match e with
  | existT _ c r =>
      match c return Ret c -> option BOOL with
      | CheckFeatureSupport _ _ _ _ => fun r => Some (snd r)
      | _ => fun _ => None
      end r
  end.

Definition reports_tearing (e : Event) : bool :=
  match tearing_value_of e with Some v => v =? TRUE | None => false end.

(** The number of platform calls a sequence of requests makes, given the
    flag it starts from. *)
Fixpoint calls_needed (flag : bool) (args : list bool) : nat :=
  match args with
  | [] => 0
  | b :: args' =>
      ((if Bool.eqb flag b then 0 else if b then 6 else 3)
       + calls_needed b args')%nat
  end.

(** The description [CreateSwapChain] fills in, as a function of what varies. *)
Definition swapChainDesc_with (width height bufferCount : Z) (tearing : bool)
  : DXGI_SWAP_CHAIN_DESC1 :=
  {| Width := width;
     Height := height;
     Format := DXGI_FORMAT_R8G8B8A8_UNORM;
     Stereo := FALSE;
     SampleDesc := mkSampleDesc 1 0;
     BufferUsage := DXGI_USAGE_RENDER_TARGET_OUTPUT;
     BufferCount := bufferCount;
     Scaling := DXGI_SCALING_STRETCH;
     SwapEffect := DXGI_SWAP_EFFECT_FLIP_DISCARD;
     AlphaMode := DXGI_ALPHA_MODE_UNSPECIFIED;
     Flags := if tearing then DXGI_SWAP_CHAIN_FLAG_ALLOW_TEARING else 0 |}.

(** The world a member function leaves when it has only made platform
    calls: the object and the static as before, the events appended. *)
Definition after_calls {P} (w : World P) (os' : OS P) (evs : list Event)
  : World P :=
  mkWorld (this w) (mkProcess os' (trace (proc w) ++ evs) (atom (proc w))).

(** ** The small host with faults

    The host of [Desktop], except that chosen queries fail: they answer as
    a [BOOL] API that returns zero and leaves the buffer alone, or with a
    zero atom. *)
Module Faulty.
Record Faults : Type := mkFaults {
  no_window_rect : bool;
  no_monitor_info : bool;
  no_adjust : bool;
  no_class : bool
}.

Definition answer (f : Faults) (sc : Desktop.Scenario) (c : Call)
  : Desktop.State -> Ret c * Desktop.State :=
  match c as c'
        return (Desktop.State -> Ret c' * Desktop.State) ->
               Desktop.State -> Ret c' * Desktop.State with
  | GetWindowRect _ => fun d s => if no_window_rect f then (None, s) else d s
  | GetMonitorInfo _ _ => fun d s =>
      if no_monitor_info f then (None, s) else d s
  | AdjustWindowRect _ _ _ => fun d s => if no_adjust f then (None, s) else d s
  | RegisterClassExW _ => fun d s => if no_class f then (0, s) else d s
  | _ => fun d => d
  end (Desktop.answer sc c).

Definition platform (f : Faults) (sc : Desktop.Scenario) : Platform :=
  mkPlatform Desktop.State (answer f sc).

(** No rectangle and no monitor info to be had. *)
Definition blind : Faults := mkFaults true true false false.
(** Class registration fails. *)
Definition unregistered : Faults := mkFaults false false false true.
(** The chrome insets are not to be had. *)
Definition bare : Faults := mkFaults false false true false.

Definition start (f : Faults) (sc : Desktop.Scenario)
  : World (platform f sc) :=
  mkWorld (mkWindow false (mkRECT 0 0 0 0) NULL)
          (fresh_process (P := platform f sc) Desktop.boot).

Definition with_window (f : Faults) (sc : Desktop.Scenario)
  : World (platform f sc) :=
  final (CreateWindow Desktop.debug_build 0x00400000 "Test" 1280 720
           (start f sc)).
End Faulty.

Example Desktop_with_window :
  this (Desktop.with_window Desktop.usual)
  = mkWindow false (mkRECT 312 160 1608 919) Desktop.the_window.
Proof. vm_compute. reflexivity. Qed.

(** * Properties *)

(** ** Arithmetic of [LONG] *)

Lemma Int32_wrap_range (z : Z) : Int32.in_range (Int32.wrap z).
Proof.
  unfold Int32.in_range, Int32.wrap, Int32.half, Int32.modulus.
  pose proof (Z.mod_pos_bound (z + 2 ^ 31) (2 ^ 32) ltac:(lia)). lia.
Qed.

Lemma Int32_wrap_id (z : Z) : Int32.in_range z -> Int32.wrap z = z.
Proof.
  unfold Int32.in_range, Int32.wrap, Int32.half, Int32.modulus. intros H.
  rewrite Z.mod_small; lia.
Qed.

(** Position plus size gives back the far edge, also when the difference
    wrapped. *)
Lemma Int32_add_sub (a b : Z) :
  Int32.in_range b -> Int32.add a (Int32.sub b a) = b.
Proof.
  intros Hb. unfold Int32.add, Int32.sub.
  rewrite <- (Int32_wrap_id b Hb) at 2.
  unfold Int32.wrap. f_equal.
  replace (a + ((b - a + Int32.half) mod Int32.modulus - Int32.half) + Int32.half)
    with ((b - a + Int32.half) mod Int32.modulus + a) by lia.
  rewrite Z.add_mod_idemp_l by (unfold Int32.modulus; lia).
  f_equal. lia.
Qed.

Lemma requested_rect_of_RECT (r : RECT) :
  RECT_wf r ->
  requested_rect (left r) (top r)
    (Int32.sub (right r) (left r)) (Int32.sub (bottom r) (top r)) = r.
Proof.
  intros (_ & _ & Hr & Hb). unfold requested_rect.
  rewrite !Int32_add_sub by assumption. destruct r; reflexivity.
Qed.

(** Halving an [int] stays in range, so [Int32.div _ 2] is plain truncation. *)
Lemma Int32_div_2 (n : Z) : Int32.in_range n -> Int32.div n 2 = Z.quot n 2.
Proof.
  intros H. unfold Int32.div. apply Int32_wrap_id.
  unfold Int32.in_range, Int32.half in *.
  destruct (Z_lt_le_dec n 0) as [Hn | Hn].
  - assert (Hq : Z.quot n 2 = - Z.quot (- n) 2)
      by (rewrite Z.quot_opp_l by lia; lia).
    pose proof (Z.quot_pos (- n) 2 ltac:(lia) ltac:(lia)).
    pose proof (Z.quot_le_upper_bound (- n) 2 (2 ^ 31) ltac:(lia) ltac:(lia)).
    lia.
  - pose proof (Z.quot_pos n 2 ltac:(lia) ltac:(lia)).
    pose proof (Z.quot_le_upper_bound n 2 (2 ^ 31 - 1) ltac:(lia) ltac:(lia)).
    lia.
Qed.

(** Once clamped at [0], truncating and flooring division agree. *)
Lemma clamp_quot_div (n : Z) : Z.max 0 (Z.quot n 2) = Z.max 0 (n / 2).
Proof.
  destruct (Z_lt_le_dec n 0) as [Hn | Hn].
  - assert (Z.quot n 2 <= 0).
    { rewrite <- (Z.opp_involutive n), Z.quot_opp_l by lia.
      pose proof (Z.quot_pos (- n) 2 ltac:(lia) ltac:(lia)). lia. }
    assert (n / 2 < 0) by (apply Z.div_lt_upper_bound; lia).
    lia.
  - rewrite Z.quot_div_nonneg by lia. reflexivity.
Qed.

(** ** The fullscreen toggle *)

(** Unfold a member function down to its platform calls. *)
Ltac simp_world :=
  cbv beta iota zeta delta
    [this proc os trace atom g_Fullscreen g_WindowRect g_hWnd
     final returned fst snd].

Ltac unfold_prog :=
  cbv beta iota zeta delta
    [SetFullscreen ToggleFullscreen GetHWND Show CreateWindow
     RegisterWindowClass CheckTearingSupport CreateSwapChain
     GetWindowRect_to_g_WindowRect ThrowIfFailed assert
     bind ret get put call abort get_atom set_atom];
  simp_world.

(** Name the platform's answer to the next call, or split on an answer that
    the program inspects. *)
Ltac answer_call :=
  match goal with
  | |- context [handle ?P ?c ?s] =>
      let r := fresh "r" in
      let s' := fresh "os" in
      let E := fresh "E" in
      destruct (handle P c s) as [r s'] eqn:E; simp_world
  | |- context [match ?r with Some _ => _ | None => _ end] =>
      is_var r; destruct r; simp_world
  end.

Lemma SetFullscreen_same (P : Platform) (w : World P) :
  SetFullscreen (g_Fullscreen (this w)) w = Returned tt w.
Proof.
  unfold SetFullscreen, bind, get. cbn.
  rewrite Bool.eqb_reflx. reflexivity.
Qed.

Lemma SetFullscreen_returns (P : Platform) (b : bool) (w : World P) :
  exists w', SetFullscreen b w = Returned tt w'
             /\ g_Fullscreen (this w') = b
             /\ g_hWnd (this w') = g_hWnd (this w).
Proof.
  destruct w as [[f rc h] [s t a]].
  destruct f, b; unfold_prog; cbn [Bool.eqb negb];
    repeat answer_call; eexists; repeat split.
Qed.

(** C1. [SetFullscreen(desired)] with [desired] equal to the current
    fullscreen flag returns at once and leaves the whole world as it was: the
    object's fields, the platform's state (style, geometry, z-order live
    there) and the trace, so no platform call was made.  Hence for any
    [desired], a second call with the same value right after the first
    changes nothing. *)
Theorem SetFullscreen_same_state_is_noop (P : Platform) (w : World P) :
  SetFullscreen (g_Fullscreen (this w)) w = Returned tt w
  /\ (forall desired : bool,
        exists w1, SetFullscreen desired w = Returned tt w1
                   /\ SetFullscreen desired w1 = Returned tt w1
                   /\ trace (proc (final (SetFullscreen desired w1)))
                      = trace (proc w1)).
Proof.
  split.
  - apply SetFullscreen_same.
  - intros desired.
    destruct (SetFullscreen_returns P desired w) as (w1 & Hrun & Hflag & _).
    exists w1. split; [exact Hrun|].
    rewrite <- Hflag, SetFullscreen_same. split; reflexivity.
Qed.

(** [WS_OVERLAPPEDWINDOW] is exactly the bits that the entry strips, so the
    borderless style is the plain [WS_OVERLAPPED] value. *)
Lemma borderless_windowStyle :
  Int32.wrap
    (UInt32.wrap
       (Z.land WS_OVERLAPPEDWINDOW
          (Z.lnot (Z.lor WS_CAPTION (Z.lor WS_SYSMENU
             (Z.lor WS_THICKFRAME (Z.lor WS_MINIMIZEBOX WS_MAXIMIZEBOX)))))))
  = WS_OVERLAPPED.
Proof. vm_compute. reflexivity. Qed.

Lemma SetFullscreen_enter (P : Platform) (w : World P) :
  g_Fullscreen (this w) = false ->
  exists oldStyle hMonitor filled moved shown os',
    SetFullscreen true w
    = Returned tt
        (mkWorld
           (mkWindow true (saved_rect (current_rect w) (g_WindowRect (this w)))
                     (g_hWnd (this w)))
           (mkProcess os'
              (trace (proc w) ++
               enter_events (g_hWnd (this w)) (current_rect w) oldStyle
                 hMonitor filled moved shown)
              (atom (proc w)))).
Proof.
  destruct w as [[f rc h] [s t a]]. cbn [this g_Fullscreen]. intros ->.
  unfold current_rect, enter_events, monitorInfo_after, saved_rect.
  unfold_prog. cbn [Bool.eqb negb]. rewrite borderless_windowStyle.
  repeat answer_call;
    match goal with
    | E1 : handle P (SetWindowLongW _ _ _) _ = (?a, _),
      E2 : handle P (MonitorFromWindow _ _) _ = (?b, _),
      E3 : handle P (GetMonitorInfo _ _) _ = (?c, _),
      E4 : handle P (SetWindowPos _ _ _ _ _ _ _) _ = (?d, _),
      E5 : handle P (ShowWindow _ _) _ = (?e, ?o) |- _ =>
        exists a, b, c, d, e, o
    end;
    rewrite <- !app_assoc; reflexivity.
Qed.

Lemma SetFullscreen_exit (P : Platform) (w : World P) :
  g_Fullscreen (this w) = true ->
  exists oldStyle moved shown os',
    SetFullscreen false w
    = Returned tt
        (mkWorld
           (mkWindow false (g_WindowRect (this w)) (g_hWnd (this w)))
           (mkProcess os'
              (trace (proc w) ++
               exit_events (g_hWnd (this w)) (g_WindowRect (this w))
                 oldStyle moved shown)
              (atom (proc w)))).
Proof.
  destruct w as [[f rc h] [s t a]]. cbn [this g_Fullscreen]. intros ->.
  unfold exit_events. unfold_prog. cbn [Bool.eqb negb].
  repeat answer_call;
    match goal with
    | E1 : handle P (SetWindowLongW _ _ _) _ = (?a, _),
      E4 : handle P (SetWindowPos _ _ _ _ _ _ _) _ = (?d, _),
      E5 : handle P (ShowWindow _ _) _ = (?e, ?o) |- _ =>
        exists a, d, e, o
    end;
    rewrite <- !app_assoc; reflexivity.
Qed.

(** C6. On the transition from windowed to borderless fullscreen,
    [SetFullscreen(true)] makes exactly six platform calls, in this order:
    it asks for the window's rectangle and stores the answer in
    [g_WindowRect]; sets a window style with the border, caption and
    resize-box bits cleared; asks for the monitor nearest to the window and
    for that monitor's info; moves and sizes the window to exactly the
    monitor's full bounds [rcMonitor], at the top of the z-order ([HWND_TOP])
    and with [SWP_NOACTIVATE], so without taking the focus; and shows it
    maximized. *)
Theorem SetFullscreen_enters_fullscreen (P : Platform) (w : World P) :
  g_Fullscreen (this w) = false ->
  exists (saved : option RECT) (style oldStyle : Z) (hMonitor : HMONITOR)
         (filled : option MONITORINFOEX) (X Y cx cy uFlags : Z)
         (moved shown : BOOL) (w1 : World P),
    SetFullscreen true w = Returned tt w1
    /\ trace (proc w1)
       = trace (proc w) ++
         [ event (GetWindowRect (g_hWnd (this w))) saved;
           event (SetWindowLongW (g_hWnd (this w)) GWL_STYLE style) oldStyle;
           event (MonitorFromWindow (g_hWnd (this w))
                    MONITOR_DEFAULTTONEAREST) hMonitor;
           event (GetMonitorInfo hMonitor
                    (mkMONITORINFOEX sizeof_MONITORINFOEX
                       (mkRECT 0 0 0 0) (mkRECT 0 0 0 0) 0)) filled;
           event (SetWindowPos (g_hWnd (this w)) HWND_TOP X Y cx cy uFlags)
                 moved;
           event (ShowWindow (g_hWnd (this w)) SW_MAXIMIZE) shown ]
    /\ g_Fullscreen (this w1) = true
    /\ saved = current_rect w
    /\ (forall r, saved = Some r -> g_WindowRect (this w1) = r)
    /\ Z.land style WS_BORDER = 0
    /\ Z.land style WS_CAPTION = 0
    /\ Z.land style WS_SIZEBOX = 0
    /\ (forall mi, filled = Some mi ->
          X = left (rcMonitor mi) /\ Y = top (rcMonitor mi)
          /\ cx = Int32.sub (right (rcMonitor mi)) (left (rcMonitor mi))
          /\ cy = Int32.sub (bottom (rcMonitor mi)) (top (rcMonitor mi))
          /\ (RECT_wf (rcMonitor mi) ->
              requested_rect X Y cx cy = rcMonitor mi))
    /\ Z.land uFlags SWP_NOACTIVATE = SWP_NOACTIVATE.
Proof.
  destruct w as [[f rc h] [s t a]]. cbn [this g_Fullscreen]. intros ->.
  unfold current_rect. unfold_prog. cbn [Bool.eqb negb].
  repeat answer_call;
    do 13 eexists;
    (split; [reflexivity|]);
    (split; [rewrite <- !app_assoc; reflexivity|]);
    simp_world;
    repeat split; intros;
    repeat match goal with
           | H : Some _ = Some _ |- _ => injection H as <-
           | H : None = Some _ |- _ => discriminate H
           end;
    auto using requested_rect_of_RECT.
Qed.


(** On the small host: the 1280 x 720 window, once fullscreen, covers the
    screen, carries the plain [WS_OVERLAPPED] style and is maximized, and
    the object remembers where the window was. *)
Example SetFullscreen_enters_on_Desktop :
  let o := SetFullscreen true (Desktop.with_window Desktop.usual) in
  returned o = Some tt
  /\ this (final o) = mkWindow true (mkRECT 312 160 1608 919) Desktop.the_window
  /\ Desktop.rect (os (proc (final o))) = Desktop.screen
  /\ Desktop.style (os (proc (final o))) = WS_OVERLAPPED
  /\ Desktop.show_cmd (os (proc (final o))) = SW_MAXIMIZE.
Proof. vm_compute. repeat split. Qed.

Lemma SetFullscreen_enters_fullscreen_witness :
  g_Fullscreen (this (Desktop.with_window Desktop.usual)) = false
  /\ exists w1,
       SetFullscreen true (Desktop.with_window Desktop.usual) = Returned tt w1
       /\ g_Fullscreen (this w1) = true.
Proof.
  assert (H : g_Fullscreen (this (Desktop.with_window Desktop.usual)) = false)
    by (vm_compute; reflexivity).
  split; [exact H|].
  destruct (SetFullscreen_enters_fullscreen _ _ H)
    as (? & ? & ? & ? & ? & ? & ? & ? & ? & ? & ? & ? & w1 & Hrun & _ & Hf & _).
  exists w1. split; assumption.
Defined.

(** C2. From a windowed state in which the window's rectangle is [r]:
    [SetFullscreen(true)] stores exactly [r] in [g_WindowRect], and the
    following [SetFullscreen(false)] asks the platform, with [SetWindowPos],
    for a position and size that describe exactly [r] again, left, top, right
    and bottom, also where [right - left] or [bottom - top] wrapped around;
    the stored rectangle is still [r] afterwards. *)
Theorem fullscreen_round_trip_restores_rect
    (P : Platform) (w : World P) (r : RECT) :
  g_Fullscreen (this w) = false ->
  current_rect w = Some r ->
  RECT_wf r ->
  exists (w1 w2 : World P) (oldStyle X Y cx cy uFlags : Z)
         (moved shown : BOOL),
    SetFullscreen true w = Returned tt w1
    /\ g_WindowRect (this w1) = r
    /\ SetFullscreen false w1 = Returned tt w2
    /\ trace (proc w2)
       = trace (proc w1) ++
         [ event (SetWindowLongW (g_hWnd (this w)) GWL_STYLE
                    WS_OVERLAPPEDWINDOW) oldStyle;
           event (SetWindowPos (g_hWnd (this w)) HWND_NOTOPMOST
                    X Y cx cy uFlags) moved;
           event (ShowWindow (g_hWnd (this w)) SW_NORMAL) shown ]
    /\ requested_rect X Y cx cy = r
    /\ g_Fullscreen (this w2) = false
    /\ g_WindowRect (this w2) = r.
Proof.
  intros Hwin Hcur Hwf.
  destruct (SetFullscreen_enter P w Hwin)
    as (old1 & hMon & filled & moved1 & shown1 & os1 & Henter).
  rewrite Hcur in Henter. cbn [saved_rect] in Henter.
  match type of Henter with _ = Returned tt ?W => set (w1 := W) in * end.
  destruct (SetFullscreen_exit P w1 eq_refl)
    as (old2 & moved2 & shown2 & os2 & Hexit).
  match type of Hexit with _ = Returned tt ?W => set (w2 := W) in * end.
  exists w1, w2, old2, (left r), (top r),
    (Int32.sub (right r) (left r)), (Int32.sub (bottom r) (top r)),
    (Z.lor SWP_FRAMECHANGED SWP_NOACTIVATE), moved2, shown2.
  repeat split; try assumption; try reflexivity.
  apply requested_rect_of_RECT; assumption.
Qed.

(** On the small host the window is back where it was. *)
Example fullscreen_round_trip_on_Desktop :
  let w1 := final (SetFullscreen true (Desktop.with_window Desktop.usual)) in
  let w2 := final (SetFullscreen false w1) in
  Desktop.rect (os (proc w1)) = Desktop.screen
  /\ Desktop.rect (os (proc w2)) = mkRECT 312 160 1608 919
  /\ this w2 = this (Desktop.with_window Desktop.usual).
Proof. vm_compute. repeat split. Qed.

Lemma fullscreen_round_trip_restores_rect_witness :
  exists (w1 w2 : World (Desktop.platform Desktop.usual)),
    SetFullscreen true (Desktop.with_window Desktop.usual) = Returned tt w1
    /\ SetFullscreen false w1 = Returned tt w2
    /\ g_WindowRect (this w2) = mkRECT 312 160 1608 919.
Proof.
  assert (Hwin : g_Fullscreen (this (Desktop.with_window Desktop.usual)) = false)
    by (vm_compute; reflexivity).
  assert (Hcur : current_rect (Desktop.with_window Desktop.usual)
                 = Some (mkRECT 312 160 1608 919))
    by (vm_compute; reflexivity).
  assert (Hwf : RECT_wf (mkRECT 312 160 1608 919))
    by (unfold RECT_wf, Int32.in_range, Int32.half; cbn; lia).
  destruct (fullscreen_round_trip_restores_rect _ _ _ Hwin Hcur Hwf)
    as (w1 & w2 & ? & ? & ? & ? & ? & ? & ? & ? & H1 & _ & H2 & _ & _ & _ & H3).
  exists w1, w2. repeat split; assumption.
Defined.

(** ** What the member functions leave alone *)

(** Run a member function down to the platform's answers and the tests the
    program makes on them. *)
Ltac step_prog :=
  first
    [ answer_call
    | match goal with
      | |- context [if ?c then _ else _] => destruct c eqn:?; simp_world
      end ].

Ltac run_prog := unfold_prog; repeat step_prog.

Lemma RegisterWindowClass_this (P : Platform) cfg hInst (w : World P) :
  this (final (RegisterWindowClass cfg hInst w)) = this w.
Proof. destruct w as [o [s t a]]. run_prog; reflexivity. Qed.

Lemma CheckTearingSupport_this (P : Platform) (w : World P) :
  this (final (CheckTearingSupport w)) = this w.
Proof. destruct w as [o [s t a]]. run_prog; reflexivity. Qed.

Lemma CreateSwapChain_this (P : Platform) cfg q width height n (w : World P) :
  this (final (CreateSwapChain cfg q width height n w)) = this w.
Proof. destruct w as [o [s t a]]. run_prog; reflexivity. Qed.

Lemma Show_this (P : Platform) (w : World P) :
  this (final (Show w)) = this w.
Proof. destruct w as [o [s t a]]. run_prog; reflexivity. Qed.

Lemma SetFullscreen_g_WindowRect (P : Platform) (b : bool) (w : World P) :
  g_WindowRect (this (final (SetFullscreen b w))) <> g_WindowRect (this w) ->
  g_Fullscreen (this w) = false /\ b = true.
Proof.
  destruct (g_Fullscreen (this w)) eqn:Hf, b; intros Hneq.
  - exfalso. apply Hneq. rewrite <- Hf, SetFullscreen_same. reflexivity.
  - exfalso. apply Hneq.
    destruct (SetFullscreen_exit P w Hf) as (? & ? & ? & ? & ->). reflexivity.
  - split; reflexivity.
  - exfalso. apply Hneq. rewrite <- Hf, SetFullscreen_same. reflexivity.
Qed.

Lemma SetFullscreen_seq_g_hWnd (P : Platform) (args : list bool) :
  forall w : World P, g_hWnd (this (SetFullscreen_seq args w)) = g_hWnd (this w).
Proof.
  induction args as [|b args IH]; intros w; cbn [SetFullscreen_seq].
  - reflexivity.
  - rewrite IH.
    destruct (SetFullscreen_returns P b w) as (w' & -> & _ & Hh). exact Hh.
Qed.

(** One call extends the trace by events that respect the capture
    discipline, and hands the next call the rectangle captured last. *)
Lemma SetFullscreen_capture_step (P : Platform) (b : bool) (w : World P) :
  exists evs,
    trace (proc (final (SetFullscreen b w))) = trace (proc w) ++ evs
    /\ forall rest,
         exits_restore_capture
           (g_WindowRect (this (final (SetFullscreen b w)))) rest ->
         exits_restore_capture (g_WindowRect (this w)) (evs ++ rest).
Proof.
  destruct (Bool.bool_dec (g_Fullscreen (this w)) b) as [<- | Hneq].
  - exists []. rewrite SetFullscreen_same, app_nil_r. cbn. auto.
  - destruct (g_Fullscreen (this w)) eqn:Hf, b; try congruence.
    + destruct (SetFullscreen_exit P w Hf) as (o & m & s & os' & ->).
      eexists. split; [reflexivity|]. cbn. intros rest Hrest.
      split; [intros _; repeat split | exact Hrest].
    + destruct (SetFullscreen_enter P w Hf)
        as (o & hm & fi & m & s & os' & ->).
      eexists. split; [reflexivity|]. cbn. intros rest Hrest.
      unfold saved_rect in Hrest.
      destruct (current_rect w);
        (split; [intros Htop; discriminate Htop | exact Hrest]).
Qed.

Lemma SetFullscreen_seq_capture (P : Platform) (args : list bool) :
  forall w : World P,
  exists evs,
    trace (proc (SetFullscreen_seq args w)) = trace (proc w) ++ evs
    /\ exits_restore_capture (g_WindowRect (this w)) evs.
Proof.
  induction args as [|b args IH]; intros w; cbn [SetFullscreen_seq].
  - exists []. rewrite app_nil_r. split; [reflexivity | exact I].
  - destruct (IH (final (SetFullscreen b w))) as (evs' & Ht' & Hc').
    destruct (SetFullscreen_capture_step P b w) as (evs & Ht & Hc).
    exists (evs ++ evs'). split.
    + rewrite Ht', Ht, app_assoc. reflexivity.
    + apply Hc, Hc'.
Qed.

(** Requests that repeat the current flag leave the world as it is. *)
Lemma SetFullscreen_seq_repeat_same (P : Platform) (k : nat) (w : World P) :
  SetFullscreen_seq (repeat (g_Fullscreen (this w)) k) w = w.
Proof.
  induction k as [|k IH]; cbn [repeat SetFullscreen_seq]; [reflexivity|].
  rewrite SetFullscreen_same. cbn [final]. exact IH.
Qed.

(** After any history: an entry from the windowed state stores the window's
    rectangle, redundant requests keep it, and the exit requests it. *)
Lemma SetFullscreen_cycle_restores (P : Platform) (k : nat) (r : RECT)
      (w0 : World P) :
  g_Fullscreen (this w0) = false ->
  current_rect w0 = Some r ->
  RECT_wf r ->
  let w1 := SetFullscreen_seq (true :: repeat true k) w0 in
  exists (oldStyle : Z) (moved shown : BOOL) (w2 : World P),
    g_Fullscreen (this w1) = true
    /\ g_WindowRect (this w1) = r
    /\ SetFullscreen false w1 = Returned tt w2
    /\ trace (proc w2)
       = trace (proc w1) ++
         [ event (SetWindowLongW (g_hWnd (this w0)) GWL_STYLE
                    WS_OVERLAPPEDWINDOW) oldStyle;
           event (SetWindowPos (g_hWnd (this w0)) HWND_NOTOPMOST
                    (left r) (top r)
                    (Int32.sub (right r) (left r))
                    (Int32.sub (bottom r) (top r))
                    (Z.lor SWP_FRAMECHANGED SWP_NOACTIVATE)) moved;
           event (ShowWindow (g_hWnd (this w0)) SW_NORMAL) shown ]
    /\ requested_rect (left r) (top r)
         (Int32.sub (right r) (left r)) (Int32.sub (bottom r) (top r)) = r
    /\ g_Fullscreen (this w2) = false
    /\ g_WindowRect (this w2) = r
    /\ g_hWnd (this w2) = g_hWnd (this w0).
Proof.
  intros Hf Hcur Hwf w1. subst w1. cbn [SetFullscreen_seq].
  destruct (SetFullscreen_enter P w0 Hf)
    as (o1 & hm & fi & m1 & s1 & os1 & H1).
  rewrite H1. cbn [final]. rewrite Hcur. cbn [saved_rect].
  match goal with
  | |- context [SetFullscreen_seq (repeat true k) ?W] =>
      pose proof (SetFullscreen_seq_repeat_same P k W) as Hsame;
      cbn [this g_Fullscreen] in Hsame; rewrite Hsame; clear Hsame;
      destruct (SetFullscreen_exit P W eq_refl) as (o2 & m2 & s2 & os2 & H2)
  end.
  cbn [this proc trace atom g_WindowRect g_hWnd] in H2.
  eexists o2, m2, s2, _.
  split; [reflexivity|]. split; [reflexivity|]. split; [exact H2|].
  split; [reflexivity|].
  split; [apply requested_rect_of_RECT; exact Hwf|].
  repeat split.
Qed.

(** The capture discipline is a real constraint: an exit request for
    another rectangle breaks it. *)
Example exits_restore_capture_rejects :
  ~ exits_restore_capture (mkRECT 10 20 110 220)
      [ event (SetWindowPos 1 HWND_NOTOPMOST 0 0 100 200 0) TRUE ].
Proof. cbn. intros [H _]. destruct (H eq_refl) as [H0 _]. discriminate H0. Qed.

(** C10. [SetFullscreen] never changes [g_hWnd], whatever sequence of calls
    is made.  A call changes [g_WindowRect] only on the windowed-to-fullscreen
    transition; the fullscreen-to-windowed transition leaves it as it is, and
    so do [RegisterWindowClass], [CheckTearingSupport], [CreateSwapChain],
    [Show] and [GetHWND] (of the member functions, only [CreateWindow] and
    the fullscreen entry write it).  Over any sequence of calls, every exit
    asks the platform for exactly the rectangle that the most recent entry
    captured.  And the
    cycles do take place: after any history that ends windowed with the
    window at rectangle [r], the entry stores [r], repeated requests for
    fullscreen keep it, and the exit makes its three calls, the second of
    which asks for exactly [r]; [r] is still stored afterwards. *)
Theorem SetFullscreen_frame (P : Platform) (w : World P) :
  (forall args : list bool,
     g_hWnd (this (SetFullscreen_seq args w)) = g_hWnd (this w))
  /\ (forall b : bool,
        g_WindowRect (this (final (SetFullscreen b w))) <> g_WindowRect (this w) ->
        g_Fullscreen (this w) = false /\ b = true)
  /\ (g_Fullscreen (this w) = true ->
      g_WindowRect (this (final (SetFullscreen false w)))
      = g_WindowRect (this w))
  /\ (forall cfg hInst, this (final (RegisterWindowClass cfg hInst w)) = this w)
  /\ this (final (CheckTearingSupport w)) = this w
  /\ (forall cfg q width height n,
        this (final (CreateSwapChain cfg q width height n w)) = this w)
  /\ this (final (Show w)) = this w
  /\ this (final (GetHWND w)) = this w
  /\ (forall args : list bool,
        exists evs,
          trace (proc (SetFullscreen_seq args w)) = trace (proc w) ++ evs
          /\ exits_restore_capture (g_WindowRect (this w)) evs)
  /\ (forall (history : list bool) (k : nat) (r : RECT),
        let w0 := SetFullscreen_seq history w in
        g_Fullscreen (this w0) = false ->
        current_rect w0 = Some r ->
        RECT_wf r ->
        let w1 := SetFullscreen_seq (true :: repeat true k) w0 in
        exists (oldStyle : Z) (moved shown : BOOL) (w2 : World P),
          g_Fullscreen (this w1) = true
          /\ g_WindowRect (this w1) = r
          /\ SetFullscreen false w1 = Returned tt w2
          /\ trace (proc w2)
             = trace (proc w1) ++
               [ event (SetWindowLongW (g_hWnd (this w)) GWL_STYLE
                          WS_OVERLAPPEDWINDOW) oldStyle;
                 event (SetWindowPos (g_hWnd (this w)) HWND_NOTOPMOST
                          (left r) (top r)
                          (Int32.sub (right r) (left r))
                          (Int32.sub (bottom r) (top r))
                          (Z.lor SWP_FRAMECHANGED SWP_NOACTIVATE)) moved;
                 event (ShowWindow (g_hWnd (this w)) SW_NORMAL) shown ]
          /\ requested_rect (left r) (top r)
               (Int32.sub (right r) (left r))
               (Int32.sub (bottom r) (top r)) = r
          /\ g_Fullscreen (this w2) = false
          /\ g_WindowRect (this w2) = r
          /\ g_hWnd (this w2) = g_hWnd (this w)).
Proof.
  split; [intros; apply SetFullscreen_seq_g_hWnd|].
  split; [intros b; apply SetFullscreen_g_WindowRect|].
  split.
  { intros Hf.
    destruct (SetFullscreen_exit P w Hf) as (? & ? & ? & ? & ->). reflexivity. }
  split; [intros; apply RegisterWindowClass_this|].
  split; [apply CheckTearingSupport_this|].
  split; [intros; apply CreateSwapChain_this|].
  split; [apply Show_this|].
  split; [reflexivity|].
  split; [intros args; apply SetFullscreen_seq_capture|].
  intros history k r w0 Hf Hcur Hwf.
  rewrite <- (SetFullscreen_seq_g_hWnd P history w). fold w0.
  apply SetFullscreen_cycle_restores; assumption.
Qed.

(** Enter/exit cycles with redundant calls in between, on the small host:
    the redundant calls add nothing to the trace, and each exit puts the
    window back where the preceding entry found it. *)
Example SetFullscreen_cycles_on_Desktop :
  let w := SetFullscreen_seq [true; true; false; false; true; false]
             (Desktop.with_window Desktop.usual) in
  this w = this (Desktop.with_window Desktop.usual)
  /\ Desktop.rect (os (proc w)) = mkRECT 312 160 1608 919
  /\ List.length (trace (proc w)) = (5 + 6 + 3 + 6 + 3)%nat.
Proof. vm_compute. repeat split. Qed.

(** ** Window-class registration *)

Lemma registrations_app (t t' : list Event) :
  registrations (t ++ t') = (registrations t + registrations t')%nat.
Proof. unfold registrations. rewrite filter_app, length_app. reflexivity. Qed.

(** One call: the static is initialised afterwards, and the descriptor was
    registered during the call exactly when the static was not initialised
    before. *)
Lemma RegisterWindowClass_once (P : Platform) cfg hInst o (p : Process P) :
  let p' := proc (final (RegisterWindowClass cfg hInst (mkWorld o p))) in
  atom p' <> None
  /\ registrations (trace p')
     = (registrations (trace p)
        + match atom p with None => 1 | Some _ => 0 end)%nat.
Proof.
  destruct p as [s t a]. run_prog;
    (split; [discriminate|]);
    rewrite ?registrations_app; cbn; lia.
Qed.

Lemma RegisterWindowClass_seq_once (P : Platform) cfg calls :
  forall p : Process P,
    (registrations (trace (RegisterWindowClass_seq cfg calls p))
     = registrations (trace p)
       + match atom p with
         | None => match calls with [] => 0 | _ :: _ => 1 end
         | Some _ => 0
         end)%nat.
Proof.
  induction calls as [|[o hInst] calls IH]; intros p;
    cbn [RegisterWindowClass_seq].
  - destruct (atom p); lia.
  - pose proof (RegisterWindowClass_once P cfg hInst o p) as [Hinit Hcount].
    cbv zeta in Hinit, Hcount.
    destruct (RegisterWindowClass cfg hInst (mkWorld o p)) as [u w|d w];
      cbn [final] in Hinit, Hcount; try exact Hcount.
    rewrite IH, Hcount.
    destruct (atom (proc w)); [|congruence]. lia.
Qed.

(** C8. Whatever sequence of [RegisterWindowClass] calls a process makes,
    from whichever [Window] objects, the class descriptor is handed to
    [RegisterClassExW] at most once: the trace of a process that started
    fresh holds at most one such call, and once the function-local static
    is initialised no later sequence of calls adds another. *)
Theorem RegisterWindowClass_registers_at_most_once
    (P : Platform) (cfg : BuildConfig) (calls : list (Window * HINSTANCE)) :
  (forall os0 : OS P,
     (registrations
        (trace (RegisterWindowClass_seq cfg calls (fresh_process os0))) <= 1)%nat)
  /\ (forall p : Process P,
        atom p <> None ->
        registrations (trace (RegisterWindowClass_seq cfg calls p))
        = registrations (trace p)).
Proof.
  split.
  - intros os0. rewrite RegisterWindowClass_seq_once. cbn.
    destruct calls; lia.
  - intros p Hinit. rewrite RegisterWindowClass_seq_once.
    destruct (atom p); [lia | congruence].
Qed.

(** Three calls from two objects on the small host: one registration, three
    times the icon and cursor look-ups. *)
Example RegisterWindowClass_thrice_on_Desktop :
  let o1 := mkWindow false (mkRECT 0 0 0 0) NULL in
  let o2 := mkWindow true (mkRECT 1 2 3 4) Desktop.the_window in
  let p := RegisterWindowClass_seq Desktop.debug_build
             [(o1, 0x400000); (o2, 0x400000); (o1, 0x400000)]
             (fresh_process (P := Desktop.platform Desktop.usual)
                Desktop.boot) in
  registrations (trace p) = 1%nat
  /\ List.length (trace p) = 10%nat
  /\ Desktop.classes (os p) = 1%nat
  /\ atom p = Some 0xC001.
Proof. vm_compute. repeat split. Qed.

(** ** Tearing support and the swap chain *)

Lemma FAILED_SUCCEEDED (hr : HRESULT) : FAILED hr = negb (SUCCEEDED hr).
Proof. unfold FAILED, SUCCEEDED. apply Z.ltb_antisym. Qed.

(** The three ways [CheckTearingSupport] can run, with its result. *)
Lemma CheckTearingSupport_runs (P : Platform) (w : World P) :
  exists (b : bool) (os' : OS P) (evs : list Event),
    CheckTearingSupport w
    = Returned b (mkWorld (this w)
                          (mkProcess os' (trace (proc w) ++ evs)
                                     (atom (proc w))))
    /\ ((exists hr4 f4,
           evs = [ event CreateDXGIFactory1 (hr4, f4) ]
           /\ SUCCEEDED hr4 = false /\ b = false)
        \/ (exists hr4 f4 hr5 f5,
              evs = [ event CreateDXGIFactory1 (hr4, f4);
                      event (Factory4_As_Factory5 f4) (hr5, f5) ]
              /\ SUCCEEDED hr4 = true /\ SUCCEEDED hr5 = false /\ b = false)
        \/ (exists hr4 f4 hr5 f5 hr v,
              evs = [ event CreateDXGIFactory1 (hr4, f4);
                      event (Factory4_As_Factory5 f4) (hr5, f5);
                      event (CheckFeatureSupport f5
                               DXGI_FEATURE_PRESENT_ALLOW_TEARING
                               FALSE sizeof_BOOL) (hr, v) ]
              /\ SUCCEEDED hr4 = true /\ SUCCEEDED hr5 = true
              /\ b = negb (FAILED hr) && (v =? TRUE))).
Proof.
  destruct w as [o [s t a]]. unfold_prog.
  destruct (handle P CreateDXGIFactory1 s) as [[hr4 f4] os1] eqn:E1.
  simp_world. destruct (SUCCEEDED hr4) eqn:H4.
  - destruct (handle P (Factory4_As_Factory5 f4) os1) as [[hr5 f5] os2] eqn:E2.
    simp_world. destruct (SUCCEEDED hr5) eqn:H5.
    + destruct (handle P (CheckFeatureSupport f5
                            DXGI_FEATURE_PRESENT_ALLOW_TEARING FALSE sizeof_BOOL)
                  os2) as [[hr v] os3] eqn:E3.
      simp_world.
      exists (negb (FAILED hr) && (v =? TRUE)), os3. eexists. split.
      * rewrite <- !app_assoc. destruct (FAILED hr); reflexivity.
      * right. right. exists hr4, f4, hr5, f5, hr, v. auto.
    + exists false, os2. eexists. split.
      * rewrite <- !app_assoc. reflexivity.
      * right. left. exists hr4, f4, hr5, f5. auto.
  - exists false, os1. eexists. split.
    + reflexivity.
    + left. exists hr4, f4. auto.
Qed.

(** C4. [CheckTearingSupport] always returns: no assertion can abort it and
    no exception leaves it, whatever the platform answers.  It asks for the
    factory, then for the newer factory interface, then for the feature, and
    stops at the first failure.  If any of the calls it made failed, the
    result is [false]; the result is [true] only if all three succeeded and
    the driver wrote [TRUE] for the tearing feature. *)
Theorem CheckTearingSupport_never_fails (P : Platform) (w : World P) :
  exists (b : bool) (w' : World P) (evs : list Event),
    CheckTearingSupport w = Returned b w'
    /\ trace (proc w') = trace (proc w) ++ evs
    /\ (forall e, In e evs ->
          call_of e = CreateDXGIFactory1
          \/ (exists f4, call_of e = Factory4_As_Factory5 f4)
          \/ (exists f5, call_of e
                         = CheckFeatureSupport f5
                             DXGI_FEATURE_PRESENT_ALLOW_TEARING
                             FALSE sizeof_BOOL))
    /\ ((exists e hr, In e evs /\ hresult_of e = Some hr /\ FAILED hr = true) ->
        b = false)
    /\ (b = true ->
        (forall e hr, In e evs -> hresult_of e = Some hr -> SUCCEEDED hr = true)
        /\ exists f5 hr,
             In (event (CheckFeatureSupport f5
                          DXGI_FEATURE_PRESENT_ALLOW_TEARING FALSE sizeof_BOOL)
                       (hr, TRUE)) evs).
Proof.
  destruct (CheckTearingSupport_runs P w) as (b & os' & evs & Hrun & Hcases).
  exists b. eexists. exists evs. split; [exact Hrun|].
  split; [reflexivity|].
  destruct Hcases
    as [(hr4 & f4 & -> & H4 & ->)
       |[(hr4 & f4 & hr5 & f5 & -> & H4 & H5 & ->)
        |(hr4 & f4 & hr5 & f5 & hr & v & -> & H4 & H5 & ->)]].
  - repeat split; try discriminate.
    intros e [<-|[]]. left. reflexivity.
  - repeat split; try discriminate.
    intros e [<-|[<-|[]]]; [left | right; left; exists f4]; reflexivity.
  - split; [|split].
    + intros e [<-|[<-|[<-|[]]]];
        [left | right; left; exists f4 | right; right; exists f5]; reflexivity.
    + intros (e & hr' & Hin & Hhr & Hfail).
      rewrite FAILED_SUCCEEDED in Hfail.
      destruct Hin as [<-|[<-|[<-|[]]]]; cbn in Hhr; injection Hhr as <-.
      * rewrite H4 in Hfail. discriminate.
      * rewrite H5 in Hfail. discriminate.
      * rewrite <- FAILED_SUCCEEDED in Hfail. rewrite Hfail. reflexivity.
    + intros Hb. apply andb_prop in Hb as [Hok Hv].
      apply Z.eqb_eq in Hv. subst v. split.
      * intros e hr' [<-|[<-|[<-|[]]]] Hhr; cbn in Hhr; injection Hhr as <-;
          try assumption.
        rewrite FAILED_SUCCEEDED, Bool.negb_involutive in Hok. exact Hok.
      * exists f5, hr. right. right. left. reflexivity.
Qed.

(** On the small host: tearing is reported when the driver says so, and
    not when the feature query fails or answers [FALSE]. *)
Example CheckTearingSupport_on_Desktop :
  returned (CheckTearingSupport (Desktop.start Desktop.usual)) = Some true
  /\ returned (CheckTearingSupport
                 (Desktop.start (Desktop.mkScenario false (E_NOINTERFACE, TRUE) true)))
     = Some false
  /\ returned (CheckTearingSupport
                 (Desktop.start (Desktop.mkScenario false (S_OK, FALSE) true)))
     = Some false
  /\ returned (CheckTearingSupport
                 (Desktop.start (Desktop.mkScenario false (S_OK, 2) true)))
     = Some false.
Proof. vm_compute. repeat split. Qed.

(** Unfold [CreateSwapChain] but keep its call of [CheckTearingSupport]. *)
Ltac unfold_CreateSwapChain :=
  cbv beta iota zeta delta
    [CreateSwapChain ThrowIfFailed bind ret get call abort];
  simp_world.

(** C5. Once [CreateSwapChain] has its factory, it calls
    [CheckTearingSupport], and the description it then hands to
    [CreateSwapChainForHwnd] (the next platform call) has
    [DXGI_SWAP_CHAIN_FLAG_ALLOW_TEARING] in [Flags] if and only if that call
    returned [true]; when it returned [false], [Flags] is [0]. *)
Theorem CreateSwapChain_tearing_flag
    (P : Platform) (cfg : BuildConfig) (commandQueue : ComPtr)
    (width height bufferCount : Z) (w w0 : World P) (f : HRESULT * ComPtr) :
  call (CreateDXGIFactory2 (if _DEBUG cfg then DXGI_CREATE_FACTORY_DEBUG else 0)) w
  = Returned f w0 ->
  FAILED (fst f) = false ->
  exists (tearing : bool) (w1 : World P) (desc : DXGI_SWAP_CHAIN_DESC1)
         (s1 : HRESULT * ComPtr) (evs : list Event),
    CheckTearingSupport w0 = Returned tearing w1
    /\ trace (proc (final (CreateSwapChain cfg commandQueue width height
                             bufferCount w)))
       = trace (proc w1) ++
         event (CreateSwapChainForHwnd (snd f) commandQueue (g_hWnd (this w))
                  desc NULL NULL) s1 :: evs
    /\ (Z.land (Flags desc) DXGI_SWAP_CHAIN_FLAG_ALLOW_TEARING
        = DXGI_SWAP_CHAIN_FLAG_ALLOW_TEARING <-> tearing = true)
    /\ (tearing = false -> Flags desc = 0)
    /\ Flags desc = (if tearing then DXGI_SWAP_CHAIN_FLAG_ALLOW_TEARING else 0).
Proof.
  destruct w as [o [s t a]]. unfold call at 1. simp_world.
  destruct (handle P (CreateDXGIFactory2 _) s) as [[hrf fac] os0] eqn:E0.
  intros [= <- <-]. cbn [fst snd]. intros Hok.
  unfold_CreateSwapChain. rewrite E0. simp_world. rewrite Hok.
  match goal with
  | |- context [CheckTearingSupport ?W] =>
      destruct (CheckTearingSupport_runs P W) as (b & os1 & evs1 & Hrun & _)
  end.
  rewrite Hrun. clear Hrun. simp_world.
  match goal with
  | |- context [handle P (CreateSwapChainForHwnd ?a1 ?a2 ?a3 ?d ?a5 ?a6) ?s1] =>
      destruct (handle P (CreateSwapChainForHwnd a1 a2 a3 d a5 a6) s1)
        as [[hr1 sc1] os2] eqn:E1;
      exists b; eexists; exists d, (hr1, sc1)
  end.
  simp_world.
  assert (Hflag : forall b' : bool,
            (Z.land (if b' then DXGI_SWAP_CHAIN_FLAG_ALLOW_TEARING else 0)
               DXGI_SWAP_CHAIN_FLAG_ALLOW_TEARING
             = DXGI_SWAP_CHAIN_FLAG_ALLOW_TEARING <-> b' = true)
            /\ (b' = false ->
                (if b' then DXGI_SWAP_CHAIN_FLAG_ALLOW_TEARING else 0) = 0)).
  { intros [|]; cbn; split; try split; try reflexivity; try discriminate. }
  destruct (Hflag b) as [Hiff Hzero].
  destruct (FAILED hr1).
  - exists []. split; [reflexivity|]. cbn [final proc trace Flags].
    repeat split; try apply Hiff; try exact Hzero.
  - repeat step_prog; eexists;
      (split; [reflexivity|]);
      (split; [rewrite <- !app_assoc; cbn [app]; reflexivity|]);
      cbn [Flags]; repeat split; try apply Hiff; try exact Hzero.
Qed.

(** On the small host, with and without tearing support: the flags of the
    description that reaches the platform. *)
Example CreateSwapChain_flags_on_Desktop :
  let run sc :=
    CreateSwapChain Desktop.debug_build 0x500010 1280 720 3
      (Desktop.with_window sc) in
  map Flags (swap_chain_descs (trace (proc (final (run Desktop.usual)))))
  = [ DXGI_SWAP_CHAIN_FLAG_ALLOW_TEARING ]
  /\ map Flags
       (swap_chain_descs
          (trace (proc (final (run (Desktop.mkScenario false
                                      (E_NOINTERFACE, TRUE) true))))))
     = [ 0 ]
  /\ returned (run Desktop.usual) = Some Desktop.the_swap_chain.
Proof. vm_compute. repeat split. Qed.

Lemma CreateSwapChain_tearing_flag_witness :
  let w := Desktop.with_window Desktop.usual in
  let c := CreateDXGIFactory2 DXGI_CREATE_FACTORY_DEBUG in
  exists (desc : DXGI_SWAP_CHAIN_DESC1) (w1 : World (Desktop.platform Desktop.usual)),
    CheckTearingSupport (final (call c w)) = Returned true w1
    /\ Flags desc = DXGI_SWAP_CHAIN_FLAG_ALLOW_TEARING.
Proof.
  intros w c.
  assert (Hcall : call c w
                  = Returned (fst (handle _ c (os (proc w)))) (final (call c w))).
  { unfold call. destruct (handle _ c (os (proc w))). reflexivity. }
  assert (Hok : FAILED (fst (fst (handle _ c (os (proc w))))) = false)
    by (vm_compute; reflexivity).
  destruct (CreateSwapChain_tearing_flag _ Desktop.debug_build 0x500010
              1280 720 3 w _ _ Hcall Hok)
    as (tearing & w1 & desc & s1 & evs & Hrun & _ & _ & _ & Hflags).
  assert (Htearing : returned (CheckTearingSupport (final (call c w))) = Some true)
    by (vm_compute; reflexivity).
  rewrite Hrun in Htearing. injection Htearing as ->.
  exists desc, w1. split; assumption.
Defined.

(** The small host in its usual scenario enforces the minimum, and there the
    single-buffer call is rejected with [DXGI_ERROR_INVALID_CALL]. *)
Lemma Desktop_usual_enforces_flip_minimum :
  enforces_flip_minimum (Desktop.platform Desktop.usual).
Proof.
  intros f q h d a b s _ Hlt. cbn.
  apply Z.ltb_lt in Hlt. rewrite Hlt. reflexivity.
Qed.

Example CreateSwapChain_single_buffer_on_Desktop :
  let o := CreateSwapChain Desktop.release_build 0x500010 1280 720 1
             (Desktop.with_window Desktop.usual) in
  returned o = None
  /\ map BufferCount (swap_chain_descs (trace (proc (final o)))) = [1]
  /\ existsb (fun e => match hresult_of e with
                       | Some hr => hr =? DXGI_ERROR_INVALID_CALL
                       | None => false
                       end) (trace (proc (final o))) = true.
Proof. vm_compute. repeat split. Qed.

(** ** Window creation *)

(** The two ways [CreateWindow] can run: after the fourth platform call,
    either the assertion on the handle fires, or the window's rectangle is
    fetched and the handle returned. *)
Lemma CreateWindow_runs (P : Platform) cfg hInst title width height
      (w : World P) :
  exists (screenWidth screenHeight : Z) (adjusted : option RECT) (hWnd : HWND)
         (os4 : OS P),
    let windowRect :=
      saved_rect adjusted
        (mkRECT 0 0 (Int32.wrap width) (Int32.wrap height)) in
    let windowWidth := Int32.sub (right windowRect) (left windowRect) in
    let windowHeight := Int32.sub (bottom windowRect) (top windowRect) in
    let evs :=
      [ event (GetSystemMetrics SM_CXSCREEN) screenWidth;
        event (GetSystemMetrics SM_CYSCREEN) screenHeight;
        event (AdjustWindowRect
                 (mkRECT 0 0 (Int32.wrap width) (Int32.wrap height))
                 WS_OVERLAPPEDWINDOW FALSE) adjusted;
        event (CreateWindowExW NULL WINDOW_CLASS_NAME title
                 WS_OVERLAPPEDWINDOW
                 (Z.max 0 (Int32.div (Int32.sub screenWidth windowWidth) 2))
                 (Z.max 0 (Int32.div (Int32.sub screenHeight windowHeight) 2))
                 windowWidth windowHeight NULL NULL hInst NULL) hWnd ] in
    (NDEBUG cfg = false /\ hWnd = NULL
     /\ CreateWindow cfg hInst title width height w
        = Aborted "Failed to create window"
            (mkWorld (mkWindow (g_Fullscreen (this w)) (g_WindowRect (this w))
                               hWnd)
                     (mkProcess os4 (trace (proc w) ++ evs) (atom (proc w)))))
    \/ ((NDEBUG cfg = true \/ hWnd <> NULL)
        /\ exists (saved : option RECT) (os5 : OS P),
             CreateWindow cfg hInst title width height w
             = Returned hWnd
                 (mkWorld
                    (mkWindow (g_Fullscreen (this w))
                       (saved_rect saved (g_WindowRect (this w))) hWnd)
                    (mkProcess os5
                       (trace (proc w) ++ evs ++ [event (GetWindowRect hWnd) saved])
                       (atom (proc w))))).
Proof.
  destruct w as [[f rc h] [s t a]]. unfold_prog.
  destruct (handle P (GetSystemMetrics SM_CXSCREEN) s) as [sw os1] eqn:E1.
  simp_world.
  destruct (handle P (GetSystemMetrics SM_CYSCREEN) os1) as [sh os2] eqn:E2.
  simp_world.
  destruct (handle P (AdjustWindowRect _ _ _) os2) as [adj os3] eqn:E3.
  simp_world.
  match goal with
  | |- context [handle P (CreateWindowExW ?a1 ?a2 ?a3 ?a4 ?a5 ?a6 ?a7 ?a8
                            ?a9 ?a10 ?a11 ?a12) os3] =>
      destruct (handle P (CreateWindowExW a1 a2 a3 a4 a5 a6 a7 a8
                            a9 a10 a11 a12) os3) as [hWnd os4] eqn:E4
  end.
  simp_world. exists sw, sh, adj, hWnd, os4. cbv zeta.
  destruct (NDEBUG cfg) eqn:HN; [|destruct (hWnd =? NULL) eqn:Hnull].
  - right. split; [left; reflexivity|].
    destruct (handle P (GetWindowRect hWnd) os4) as [saved os5] eqn:E5.
    simp_world. exists saved, os5.
    destruct adj, saved; cbn [saved_rect];
      rewrite <- !app_assoc; reflexivity.
  - left. apply Z.eqb_eq in Hnull. repeat split; try assumption.
    cbn [negb]. destruct adj; cbn [saved_rect];
      rewrite <- !app_assoc; reflexivity.
  - right. apply Z.eqb_neq in Hnull. split; [right; assumption|].
    cbn [negb].
    destruct (handle P (GetWindowRect hWnd) os4) as [saved os5] eqn:E5.
    simp_world. exists saved, os5.
    destruct adj, saved; cbn [saved_rect];
      rewrite <- !app_assoc; reflexivity.
Qed.

(** C3. [CreateWindow] asks for the two screen metrics and for the outer
    rectangle of the requested client size, and then creates the window with
    the outer width and height and with its top-left corner at
    [(max 0 ((screenWidth - windowWidth) / 2),
      max 0 ((screenHeight - windowHeight) / 2))],
    computed in [int] arithmetic.  Neither coordinate is ever negative, and
    where the subtraction does not overflow the coordinate is the
    mathematical value, whether [/] truncates or floors. *)
Theorem CreateWindow_centers_and_clamps
    (P : Platform) (cfg : BuildConfig) (hInst : HINSTANCE) (title : string)
    (width height : Z) (w : World P) :
  exists (screenWidth screenHeight : Z) (adjusted : option RECT)
         (X Y windowWidth windowHeight : Z) (hWnd : HWND) (rest : list Event),
    trace (proc (final (CreateWindow cfg hInst title width height w)))
    = trace (proc w) ++
      [ event (GetSystemMetrics SM_CXSCREEN) screenWidth;
        event (GetSystemMetrics SM_CYSCREEN) screenHeight;
        event (AdjustWindowRect
                 (mkRECT 0 0 (Int32.wrap width) (Int32.wrap height))
                 WS_OVERLAPPEDWINDOW FALSE) adjusted;
        event (CreateWindowExW NULL WINDOW_CLASS_NAME title
                 WS_OVERLAPPEDWINDOW X Y windowWidth windowHeight
                 NULL NULL hInst NULL) hWnd ] ++ rest
    /\ (forall outer, adjusted = Some outer ->
          windowWidth = Int32.sub (right outer) (left outer)
          /\ windowHeight = Int32.sub (bottom outer) (top outer))
    /\ X = Z.max 0 (Int32.div (Int32.sub screenWidth windowWidth) 2)
    /\ Y = Z.max 0 (Int32.div (Int32.sub screenHeight windowHeight) 2)
    /\ 0 <= X /\ 0 <= Y
    /\ (Int32.in_range (screenWidth - windowWidth) ->
        X = Z.max 0 (Z.quot (screenWidth - windowWidth) 2)
        /\ X = Z.max 0 ((screenWidth - windowWidth) / 2))
    /\ (Int32.in_range (screenHeight - windowHeight) ->
        Y = Z.max 0 (Z.quot (screenHeight - windowHeight) 2)
        /\ Y = Z.max 0 ((screenHeight - windowHeight) / 2)).
Proof.
  destruct (CreateWindow_runs P cfg hInst title width height w)
    as (sw & sh & adj & hWnd & os4 & Hruns).
  cbv zeta in Hruns.
  set (windowRect := saved_rect adj
                       (mkRECT 0 0 (Int32.wrap width) (Int32.wrap height)))
    in Hruns.
  set (ww := Int32.sub (right windowRect) (left windowRect)) in Hruns.
  set (wh := Int32.sub (bottom windowRect) (top windowRect)) in Hruns.
  exists sw, sh, adj,
    (Z.max 0 (Int32.div (Int32.sub sw ww) 2)),
    (Z.max 0 (Int32.div (Int32.sub sh wh) 2)), ww, wh, hWnd.
  assert (Hideal : forall a b,
            Int32.in_range (a - b) ->
            Z.max 0 (Int32.div (Int32.sub a b) 2) = Z.max 0 (Z.quot (a - b) 2)
            /\ Z.max 0 (Int32.div (Int32.sub a b) 2) = Z.max 0 ((a - b) / 2)).
  { intros a b Hr. unfold Int32.sub.
    rewrite (Int32_wrap_id _ Hr), (Int32_div_2 _ Hr).
    split; [reflexivity | apply clamp_quot_div]. }
  destruct Hruns as [(_ & _ & ->) | (_ & saved & os5 & ->)];
    eexists; (split; [cbn [final proc trace]; reflexivity|]);
    (split; [intros outer ->; split; reflexivity|]);
    repeat split; try apply Z.le_max_l; apply Hideal; assumption.
Qed.

(** On the small host: a 1280 x 720 client area on the 1920 x 1080 screen is
    centred; a client area larger than the screen is clamped to the corner. *)
Example CreateWindow_positions_on_Desktop :
  let position sc width height :=
    map (fun e => match call_of e with
                  | CreateWindowExW _ _ _ _ X Y nWidth nHeight _ _ _ _ =>
                      Some (X, Y, nWidth, nHeight)
                  | _ => None
                  end)
        (trace (proc (final (CreateWindow Desktop.debug_build 0x400000 "Test"
                               width height (Desktop.start sc))))) in
  position Desktop.usual 1280 720
  = [None; None; None; Some (312, 160, 1296, 759); None]
  /\ position Desktop.usual 2560 1440
     = [None; None; None; Some (0, 0, 2576, 1479); None].
Proof. vm_compute. repeat split. Qed.

(** What the assertion of line 80 does while it is compiled in ([NDEBUG]
    not defined): [CreateWindow] never returns the null handle.  When the
    platform answers [CreateWindowExW] with the null handle, the program is
    aborted with the diagnostic "Failed to create window" before any
    further platform call; otherwise the handle the platform gave is
    returned. *)
Lemma CreateWindow_failure_is_fatal_with_assertions
    (P : Platform) (cfg : BuildConfig) (hInst : HINSTANCE) (title : string)
    (width height : Z) (w : World P) :
  NDEBUG cfg = false ->
  let o := CreateWindow cfg hInst title width height w in
  returned o <> Some NULL
  /\ exists (pre post : list Event) (e : Event) (hWnd : HWND),
       trace (proc (final o)) = trace (proc w) ++ pre ++ e :: post
       /\ created_handle e = Some hWnd
       /\ (hWnd = NULL ->
           o = Aborted "Failed to create window" (final o) /\ post = [])
       /\ (hWnd <> NULL -> returned o = Some hWnd).
Proof.
  intros HN o.
  destruct (CreateWindow_runs P cfg hInst title width height w)
    as (sw & sh & adj & hWnd & os4 & Hruns).
  cbv zeta in Hruns. subst o.
  destruct Hruns as [(_ & Hnull & ->) | ([HN' | Hnn] & saved & os5 & ->)];
    [ | congruence | ].
  - split; [discriminate|].
    eexists [_; _; _], [], _, hWnd.
    split; [reflexivity|]. split; [reflexivity|].
    split; [intros _; split; reflexivity | congruence].
  - split; [cbn [returned]; congruence|].
    eexists [_; _; _], [_], _, hWnd.
    split; [reflexivity|]. split; [reflexivity|].
    split; [congruence | intros _; reflexivity].
Qed.

(** On the small host without window creation: the debug build aborts
    after four platform calls; the release build goes on, asks for the
    rectangle of the null window and returns the null handle. *)
Example CreateWindow_failure_on_Desktop :
  let run cfg := CreateWindow cfg 0x400000 "Test" 1280 720
                   (Desktop.start Desktop.no_window) in
  returned (run Desktop.debug_build) = None
  /\ List.length (trace (proc (final (run Desktop.debug_build)))) = 4%nat
  /\ returned (run Desktop.release_build) = Some NULL
  /\ map call_of (skipn 4 (trace (proc (final (run Desktop.release_build)))))
     = [GetWindowRect NULL].
Proof. vm_compute. repeat split. Qed.

(** C9.  The claim is what the assertion at line 80 says, and the code
    keeps it only while the assertion is compiled in.  On a host that fails
    to create the window, the build with assertions aborts with the
    diagnostic "Failed to create window"; the build with [NDEBUG] defined
    does not abort: it stores the null handle in [g_hWnd], asks for the
    rectangle of the null window and returns the null handle to the
    caller. *)
Theorem CreateWindow_failed_creation_with_and_without_assert :
  let w := Desktop.start Desktop.no_window in
  let checked :=
    CreateWindow Desktop.debug_build 0x400000 "Test" 1280 720 w in
  let unchecked :=
    CreateWindow Desktop.release_build 0x400000 "Test" 1280 720 w in
  (existsb creation_failed (added w (final checked)) = true
   /\ diagnostic checked = Some "Failed to create window"%string
   /\ returned checked = None
   /\ List.length (added w (final checked)) = 4%nat)
  /\ (existsb creation_failed (added w (final unchecked)) = true
      /\ diagnostic unchecked = None
      /\ returned unchecked = Some NULL
      /\ g_hWnd (this (final unchecked)) = NULL
      /\ map call_of (skipn 4 (added w (final unchecked)))
         = [GetWindowRect NULL]).
Proof. vm_compute. repeat split. Qed.

(** Hence a failed creation does not always abort the program. *)
Lemma CreateWindow_returns_null_handle_under_NDEBUG :
  ~ (forall (P : Platform) (cfg : BuildConfig) (hInst : HINSTANCE)
            (title : string) (width height : Z) (w : World P)
            (evs : list Event),
       let o := CreateWindow cfg hInst title width height w in
       trace (proc (final o)) = trace (proc w) ++ evs ->
       existsb creation_failed evs = true ->
       exists diagnostic s, o = Aborted diagnostic s).
Proof.
  intros H.
  pose (w := Desktop.start Desktop.no_window).
  pose (o := CreateWindow Desktop.release_build 0x400000 "Test" 1280 720 w).
  assert (Hret : returned o = Some NULL) by (vm_compute; reflexivity).
  assert (Hfail : existsb creation_failed (trace (proc (final o))) = true)
    by (vm_compute; reflexivity).
  destruct (H _ Desktop.release_build 0x400000 "Test"%string 1280 720 w
              (trace (proc (final o))) eq_refl Hfail) as (d & s & Habort).
  fold o in Habort. rewrite Habort in Hret. discriminate Hret.
Qed.

(** * Further properties of the class *)

Lemma added_app (P : Platform) (w w' : World P) (evs : list Event) :
  trace (proc w') = trace (proc w) ++ evs -> added w w' = evs.
Proof.
  intros H. unfold added. rewrite H, skipn_app, skipn_all, Nat.sub_diag.
  reflexivity.
Qed.

(** ** [ToggleFullscreen] and the exit transition *)

Lemma ToggleFullscreen_SetFullscreen (P : Platform) (w : World P) :
  ToggleFullscreen w = SetFullscreen (negb (g_Fullscreen (this w))) w.
Proof. reflexivity. Qed.

(** X1. [ToggleFullscreen] is never a no-op: it always returns, flips
    [g_Fullscreen], keeps [g_hWnd] and makes platform calls (six when it
    enters fullscreen, three when it leaves).  Toggling twice brings the
    flag back, and if the window was windowed with rectangle [r], the second
    toggle asks the platform for exactly [r]. *)
Theorem ToggleFullscreen_flips (P : Platform) (w : World P) :
  exists w1 w2 : World P,
    ToggleFullscreen w = Returned tt w1
    /\ g_Fullscreen (this w1) = negb (g_Fullscreen (this w))
    /\ g_hWnd (this w1) = g_hWnd (this w)
    /\ List.length (added w w1)
       = (if g_Fullscreen (this w) then 3 else 6)%nat
    /\ ToggleFullscreen w1 = Returned tt w2
    /\ g_Fullscreen (this w2) = g_Fullscreen (this w)
    /\ g_hWnd (this w2) = g_hWnd (this w)
    /\ (forall r, g_Fullscreen (this w) = false -> current_rect w = Some r ->
          RECT_wf r ->
          exists oldStyle moved shown,
            added w1 w2
            = [ event (SetWindowLongW (g_hWnd (this w)) GWL_STYLE
                         WS_OVERLAPPEDWINDOW) oldStyle;
                event (SetWindowPos (g_hWnd (this w)) HWND_NOTOPMOST
                         (left r) (top r)
                         (Int32.sub (right r) (left r))
                         (Int32.sub (bottom r) (top r))
                         (Z.lor SWP_FRAMECHANGED SWP_NOACTIVATE)) moved;
                event (ShowWindow (g_hWnd (this w)) SW_NORMAL) shown ]
            /\ requested_rect (left r) (top r)
                 (Int32.sub (right r) (left r))
                 (Int32.sub (bottom r) (top r)) = r).
Proof.
  rewrite ToggleFullscreen_SetFullscreen.
  destruct (g_Fullscreen (this w)) eqn:Hf; cbn [negb].
  - destruct (SetFullscreen_exit P w Hf) as (o1 & m1 & s1 & os1 & H1).
    match type of H1 with _ = Returned tt ?W => set (w1 := W) in * end.
    destruct (SetFullscreen_enter P w1 eq_refl)
      as (o2 & hm & fi & m2 & s2 & os2 & H2).
    match type of H2 with _ = Returned tt ?W => set (w2 := W) in * end.
    exists w1, w2. rewrite ToggleFullscreen_SetFullscreen.
    repeat split; try assumption; try reflexivity.
    + rewrite (added_app P w w1 _ eq_refl). reflexivity.
    + intros r Hcontra. discriminate Hcontra.
  - destruct (SetFullscreen_enter P w Hf)
      as (o1 & hm & fi & m1 & s1 & os1 & H1).
    match type of H1 with _ = Returned tt ?W => set (w1 := W) in * end.
    destruct (SetFullscreen_exit P w1 eq_refl) as (o2 & m2 & s2 & os2 & H2).
    match type of H2 with _ = Returned tt ?W => set (w2 := W) in * end.
    exists w1, w2. rewrite ToggleFullscreen_SetFullscreen.
    repeat split; try assumption; try reflexivity.
    + rewrite (added_app P w w1 _ eq_refl). reflexivity.
    + intros r _ Hcur Hwf. exists o2, m2, s2.
      rewrite (added_app P w1 w2 _ eq_refl).
      unfold exit_events. subst w1. cbn [this g_WindowRect g_hWnd].
      rewrite Hcur. cbn [saved_rect].
      split; [reflexivity | apply requested_rect_of_RECT; assumption].
Qed.

(** On the small host: one toggle covers the screen, the second puts the
    window back. *)
Example ToggleFullscreen_twice_on_Desktop :
  let w1 := final (ToggleFullscreen (Desktop.with_window Desktop.usual)) in
  let w2 := final (ToggleFullscreen w1) in
  Desktop.rect (os (proc w1)) = Desktop.screen
  /\ g_Fullscreen (this w1) = true
  /\ Desktop.rect (os (proc w2)) = mkRECT 312 160 1608 919
  /\ this w2 = this (Desktop.with_window Desktop.usual).
Proof. vm_compute. repeat split. Qed.

(** X2. Leaving fullscreen makes exactly three platform calls, in this
    order: it sets the fixed style [WS_OVERLAPPEDWINDOW] (caption, system
    menu, resize frame, minimize and maximize boxes all present, whatever
    style the window had before it entered), moves and sizes the window to
    the stored rectangle with [HWND_NOTOPMOST] and [SWP_NOACTIVATE], and
    shows it in the normal state.  The stored rectangle and the handle are
    kept; only the flag changes. *)
Theorem SetFullscreen_leaves_fullscreen (P : Platform) (w : World P) :
  g_Fullscreen (this w) = true ->
  exists (oldStyle uFlags : Z) (moved shown : BOOL) (w1 : World P),
    SetFullscreen false w = Returned tt w1
    /\ added w w1
       = [ event (SetWindowLongW (g_hWnd (this w)) GWL_STYLE
                    WS_OVERLAPPEDWINDOW) oldStyle;
           event (SetWindowPos (g_hWnd (this w)) HWND_NOTOPMOST
                    (left (g_WindowRect (this w)))
                    (top (g_WindowRect (this w)))
                    (Int32.sub (right (g_WindowRect (this w)))
                               (left (g_WindowRect (this w))))
                    (Int32.sub (bottom (g_WindowRect (this w)))
                               (top (g_WindowRect (this w))))
                    uFlags) moved;
           event (ShowWindow (g_hWnd (this w)) SW_NORMAL) shown ]
    /\ this w1 = mkWindow false (g_WindowRect (this w)) (g_hWnd (this w))
    /\ atom (proc w1) = atom (proc w)
    /\ (forall bit,
          In bit [WS_CAPTION; WS_SYSMENU; WS_THICKFRAME;
                  WS_MINIMIZEBOX; WS_MAXIMIZEBOX] ->
          Z.land WS_OVERLAPPEDWINDOW bit = bit)
    /\ Z.land uFlags SWP_NOACTIVATE = SWP_NOACTIVATE
    /\ Z.land uFlags SWP_FRAMECHANGED = SWP_FRAMECHANGED.
Proof.
  intros Hf.
  destruct (SetFullscreen_exit P w Hf) as (o & m & s & os' & H).
  match type of H with _ = Returned tt ?W => set (w1 := W) in * end.
  exists o, (Z.lor SWP_FRAMECHANGED SWP_NOACTIVATE), m, s, w1.
  split; [exact H|].
  split; [apply (added_app P w w1 _ eq_refl)|].
  repeat split.
  intros bit Hin. cbn in Hin.
  repeat (destruct Hin as [<- | Hin]; [reflexivity|]). destruct Hin.
Qed.

Lemma SetFullscreen_leaves_fullscreen_witness :
  let w := final (SetFullscreen true (Desktop.with_window Desktop.usual)) in
  g_Fullscreen (this w) = true
  /\ exists w1, SetFullscreen false w = Returned tt w1
                /\ this w1 = mkWindow false (g_WindowRect (this w))
                                      (g_hWnd (this w)).
Proof.
  intros w.
  assert (Hf : g_Fullscreen (this w) = true) by (vm_compute; reflexivity).
  split; [exact Hf|].
  destruct (SetFullscreen_leaves_fullscreen _ w Hf)
    as (? & ? & ? & ? & w1 & Hrun & _ & Hthis & _).
  exists w1. split; assumption.
Defined.

(** ** Sequences of [SetFullscreen] calls *)

Lemma SetFullscreen_final_flag (P : Platform) (b : bool) (w : World P) :
  g_Fullscreen (this (final (SetFullscreen b w))) = b.
Proof.
  destruct (SetFullscreen_returns P b w) as (w' & -> & Hf & _). exact Hf.
Qed.

(** One call adds nothing, the three exit events or the six entry events,
    and all of them address the object's window. *)
Lemma SetFullscreen_added (P : Platform) (b : bool) (w : World P) :
  exists evs,
    trace (proc (final (SetFullscreen b w))) = trace (proc w) ++ evs
    /\ List.length evs
       = (if Bool.eqb (g_Fullscreen (this w)) b then 0
          else if b then 6 else 3)%nat
    /\ Forall (fun e => forall h, window_of (call_of e) = Some h ->
                                  h = g_hWnd (this w)) evs.
Proof.
  destruct (Bool.bool_dec (g_Fullscreen (this w)) b) as [<- | Hneq].
  - exists []. rewrite SetFullscreen_same, app_nil_r, Bool.eqb_reflx.
    repeat split. constructor.
  - destruct (g_Fullscreen (this w)) eqn:Hf, b; try congruence; cbn [Bool.eqb].
    + destruct (SetFullscreen_exit P w Hf) as (o & m & s & os' & ->).
      eexists. split; [reflexivity|]. split; [reflexivity|].
      repeat constructor; cbn; congruence.
    + destruct (SetFullscreen_enter P w Hf)
        as (o & hm & fi & m & s & os' & ->).
      eexists. split; [reflexivity|]. split; [reflexivity|].
      repeat constructor; cbn; congruence.
Qed.

Lemma SetFullscreen_seq_added (P : Platform) (args : list bool) :
  forall w : World P,
  exists evs,
    trace (proc (SetFullscreen_seq args w)) = trace (proc w) ++ evs
    /\ List.length evs = calls_needed (g_Fullscreen (this w)) args
    /\ Forall (fun e => forall h, window_of (call_of e) = Some h ->
                                  h = g_hWnd (this w)) evs.
Proof.
  induction args as [|b args IH]; intros w; cbn [SetFullscreen_seq calls_needed].
  - exists []. rewrite app_nil_r. repeat split. constructor.
  - destruct (IH (final (SetFullscreen b w))) as (evs' & Ht' & Hl' & Ha').
    destruct (SetFullscreen_added P b w) as (evs & Ht & Hl & Ha).
    rewrite SetFullscreen_final_flag in Hl'.
    assert (Hh : g_hWnd (this (final (SetFullscreen b w))) = g_hWnd (this w)).
    { destruct (SetFullscreen_returns P b w) as (w' & -> & _ & Hh). exact Hh. }
    rewrite Hh in Ha'.
    exists (evs ++ evs'). split; [|split].
    + rewrite Ht', Ht, app_assoc. reflexivity.
    + rewrite length_app, Hl, Hl'. reflexivity.
    + apply Forall_app. split; assumption.
Qed.

Lemma last_nonempty_default {A} (x : A) (l : list A) (d d' : A) :
  last (x :: l) d = last (x :: l) d'.
Proof.
  revert x. induction l as [|y l IH]; intros x; [reflexivity|].
  change (last (y :: l) d = last (y :: l) d'). apply IH.
Qed.

(** X3. [SetFullscreen] always returns (nothing in it asserts or throws),
    and after any sequence of calls [g_Fullscreen] is the argument of the
    last call (the initial flag if there was none).  The number of platform
    calls the sequence made depends only on the initial flag and the
    arguments: nothing for a repeated value, six for each entry, three for
    each exit. *)
Theorem SetFullscreen_seq_tracks_last_request
    (P : Platform) (args : list bool) (w : World P) :
  (forall b, returned (SetFullscreen b w) = Some tt)
  /\ g_Fullscreen (this (SetFullscreen_seq args w))
     = last args (g_Fullscreen (this w))
  /\ List.length (added w (SetFullscreen_seq args w))
     = calls_needed (g_Fullscreen (this w)) args.
Proof.
  split; [|split].
  - intros b. destruct (SetFullscreen_returns P b w) as (w' & -> & _).
    reflexivity.
  - revert w. induction args as [|b args IH]; intros w; [reflexivity|].
    cbn [SetFullscreen_seq]. rewrite IH, SetFullscreen_final_flag.
    destruct args as [|b' args]; [reflexivity|].
    change (last (b :: b' :: args) (g_Fullscreen (this w)))
      with (last (b' :: args) (g_Fullscreen (this w))).
    apply last_nonempty_default.
  - destruct (SetFullscreen_seq_added P args w) as (evs & Ht & Hl & _).
    rewrite (added_app P _ _ _ Ht). exact Hl.
Qed.

Example calls_needed_examples :
  calls_needed false [true; true; false; false; true; false] = 18%nat
  /\ calls_needed true [true; true] = 0%nat
  /\ calls_needed true [false] = 3%nat.
Proof. repeat split. Qed.

(** X4. [SetFullscreen] ignores the results of the queries it makes on
    entry.  If [GetWindowRect] fails, [g_WindowRect] keeps its old contents,
    and the next exit moves the window to that old rectangle; if
    [GetMonitorInfo] fails, the zero-initialised [monitorInfo] is used, so
    the window is moved to [(0, 0)] with size [0 x 0].  The entry goes
    through with all six calls and sets the flag in either case. *)
Theorem SetFullscreen_enter_ignores_failed_queries
    (P : Platform) (w : World P) :
  g_Fullscreen (this w) = false ->
  exists (saved : option RECT) (oldStyle : Z) (hMonitor : HMONITOR)
         (filled : option MONITORINFOEX) (X Y cx cy : Z)
         (moved shown : BOOL) (w1 : World P),
    SetFullscreen true w = Returned tt w1
    /\ added w w1
       = [ event (GetWindowRect (g_hWnd (this w))) saved;
           event (SetWindowLongW (g_hWnd (this w)) GWL_STYLE WS_OVERLAPPED)
                 oldStyle;
           event (MonitorFromWindow (g_hWnd (this w))
                    MONITOR_DEFAULTTONEAREST) hMonitor;
           event (GetMonitorInfo hMonitor
                    (mkMONITORINFOEX sizeof_MONITORINFOEX
                       (mkRECT 0 0 0 0) (mkRECT 0 0 0 0) 0)) filled;
           event (SetWindowPos (g_hWnd (this w)) HWND_TOP X Y cx cy
                    (Z.lor SWP_FRAMECHANGED SWP_NOACTIVATE)) moved;
           event (ShowWindow (g_hWnd (this w)) SW_MAXIMIZE) shown ]
    /\ saved = current_rect w
    /\ g_Fullscreen (this w1) = true
    /\ (filled = None -> X = 0 /\ Y = 0 /\ cx = 0 /\ cy = 0)
    /\ (saved = None ->
        g_WindowRect (this w1) = g_WindowRect (this w)
        /\ exists oldStyle' moved' shown' w2,
             SetFullscreen false w1 = Returned tt w2
             /\ added w1 w2
                = exit_events (g_hWnd (this w)) (g_WindowRect (this w))
                    oldStyle' moved' shown').
Proof.
  intros Hf.
  destruct (SetFullscreen_enter P w Hf)
    as (o & hm & fi & m & s & os1 & H1).
  match type of H1 with _ = Returned tt ?W => set (w1 := W) in * end.
  exists (current_rect w), o, hm, fi.
  exists (left (rcMonitor (monitorInfo_after fi))),
    (top (rcMonitor (monitorInfo_after fi))),
    (Int32.sub (right (rcMonitor (monitorInfo_after fi)))
               (left (rcMonitor (monitorInfo_after fi)))),
    (Int32.sub (bottom (rcMonitor (monitorInfo_after fi)))
               (top (rcMonitor (monitorInfo_after fi)))),
    m, s, w1.
  split; [exact H1|].
  split; [apply (added_app P w w1 _ eq_refl)|].
  split; [reflexivity|]. split; [reflexivity|]. split.
  - intros ->. repeat split.
  - intros Hnone. subst w1. cbn [this g_WindowRect g_hWnd].
    rewrite Hnone. cbn [saved_rect]. split; [reflexivity|].
    match goal with
    | |- context [SetFullscreen false ?W] =>
        destruct (SetFullscreen_exit P W eq_refl) as (o2 & m2 & s2 & os2 & H2);
        set (w1 := W) in *
    end.
    match type of H2 with _ = Returned tt ?W => set (w2 := W) in * end.
    exists o2, m2, s2, w2. split; [exact H2|].
    apply (added_app P w1 w2 _ eq_refl).
Qed.

(** A window created at (312, 160), then moved to a host on which the
    queries fail: the entry shrinks it to nothing at the origin and stores
    no new rectangle, and the exit puts it where the object last knew it. *)
Example SetFullscreen_on_Faulty :
  let known := Desktop.with_window Desktop.usual in
  let w : World (Faulty.platform Faulty.blind Desktop.usual) :=
    mkWorld (mkWindow false (mkRECT 1 2 3 4) (g_hWnd (this known)))
            (mkProcess (P := Faulty.platform Faulty.blind Desktop.usual)
               (os (proc known)) [] None) in
  let w1 := final (SetFullscreen true w) in
  let w2 := final (SetFullscreen false w1) in
  Desktop.rect (os (proc w)) = mkRECT 312 160 1608 919
  /\ Desktop.rect (os (proc w1)) = mkRECT 0 0 0 0
  /\ this w1 = mkWindow true (mkRECT 1 2 3 4) Desktop.the_window
  /\ Desktop.rect (os (proc w2)) = mkRECT 1 2 3 4.
Proof. vm_compute. repeat split. Qed.

Lemma SetFullscreen_enter_ignores_failed_queries_witness :
  let w := Faulty.with_window Faulty.blind Desktop.usual in
  g_Fullscreen (this w) = false
  /\ exists w1, SetFullscreen true w = Returned tt w1
                /\ g_WindowRect (this w1) = g_WindowRect (this w).
Proof.
  intros w.
  assert (Hf : g_Fullscreen (this w) = false) by (vm_compute; reflexivity).
  assert (Hcur : current_rect w = None) by (vm_compute; reflexivity).
  split; [exact Hf|].
  destruct (SetFullscreen_enter_ignores_failed_queries _ w Hf)
    as (saved & ? & ? & ? & ? & ? & ? & ? & ? & ? & w1
        & Hrun & _ & Hsaved & _ & _ & Hstale).
  exists w1. split; [exact Hrun|].
  apply Hstale. rewrite Hsaved. exact Hcur.
Defined.

(** ** Which window the calls address *)

Lemma Show_added (P : Platform) (w : World P) :
  exists shown os',
    Show w
    = Returned tt
        (mkWorld (this w)
           (mkProcess os'
              (trace (proc w) ++ [event (ShowWindow (g_hWnd (this w)) SW_SHOW)
                                        shown])
              (atom (proc w)))).
Proof.
  destruct w as [[f rc h] [s t a]]. unfold_prog.
  destruct (handle P (ShowWindow h SW_SHOW) s) as [r os'] eqn:E.
  exists r, os'. reflexivity.
Qed.

(** ** [CreateSwapChain] in full *)

(** The events of the tearing query concern no window, no swap chain and no
    guarded call. *)
Lemma CheckTearingSupport_quiet (P : Platform) (w : World P) :
  exists (b : bool) (os' : OS P) (evs : list Event),
    CheckTearingSupport w = Returned b (after_calls w os' evs)
    /\ existsb escalated evs = false
    /\ swap_chain_descs evs = []
    /\ Forall (fun e => window_of (call_of e) = None) evs.
Proof.
  destruct (CheckTearingSupport_runs P w) as (b & os' & evs & Hrun & Hcases).
  exists b, os', evs. split; [exact Hrun|].
  destruct Hcases
    as [(? & ? & -> & _)|[(? & ? & ? & ? & -> & _)
                         |(? & ? & ? & ? & ? & ? & -> & _)]];
    repeat split; repeat constructor.
Qed.

(** Every way [CreateSwapChain] can run: the first guarded call that fails
    ends it; if none fails it returns what the last call wrote. *)
Lemma CreateSwapChain_runs (P : Platform) cfg q width height n (w : World P) :
  let o := CreateSwapChain cfg q width height n w in
  let h := g_hWnd (this w) in
  exists (hrf : HRESULT) (fac : ComPtr) (os0 : OS P),
    let e0 := event (CreateDXGIFactory2
                       (if _DEBUG cfg then DXGI_CREATE_FACTORY_DEBUG else 0))
                    (hrf, fac) in
    (FAILED hrf = true /\ o = Aborted "ThrowIfFailed" (after_calls w os0 [e0]))
    \/ (FAILED hrf = false
        /\ exists (b : bool) (evs1 : list Event) (hr1 : HRESULT) (sc1 : ComPtr)
                  (os1 : OS P),
             let e1 := event (CreateSwapChainForHwnd fac q h
                                (swapChainDesc_with width height n b)
                                NULL NULL) (hr1, sc1) in
             existsb escalated evs1 = false
             /\ swap_chain_descs evs1 = []
             /\ Forall (fun e => window_of (call_of e) = None) evs1
             /\ ((FAILED hr1 = true
                  /\ o = Aborted "ThrowIfFailed" (after_calls w os1 (e0 :: evs1 ++ [e1])))
                 \/ (FAILED hr1 = false
                     /\ exists (hr2 : HRESULT) (os2 : OS P),
                          let e2 := event (MakeWindowAssociation fac h
                                             DXGI_MWA_NO_ALT_ENTER) hr2 in
                          (FAILED hr2 = true
                           /\ o = Aborted "ThrowIfFailed"
                                    (after_calls w os2
                                       (e0 :: evs1 ++ [e1; e2])))
                          \/ (FAILED hr2 = false
                              /\ exists (hr3 : HRESULT) (sc4 : ComPtr)
                                        (os3 : OS P),
                                   let e3 := event (SwapChain1_As_SwapChain4 sc1)
                                                   (hr3, sc4) in
                                   (FAILED hr3 = true
                                    /\ o = Aborted "ThrowIfFailed"
                                             (after_calls w os3
                                                (e0 :: evs1 ++ [e1; e2; e3])))
                                   \/ (FAILED hr3 = false
                                       /\ o = Returned sc4
                                                (after_calls w os3
                                                   (e0 :: evs1 ++ [e1; e2; e3]))))))).
Proof.
  destruct w as [[f rc h] [s t a]]. cbv zeta. unfold after_calls.
  unfold_CreateSwapChain.
  destruct (handle P (CreateDXGIFactory2 _) s) as [[hrf fac] os0] eqn:E0.
  simp_world. exists hrf, fac, os0.
  destruct (FAILED hrf) eqn:Hf; [left; split; reflexivity|].
  right. split; [reflexivity|].
  match goal with
  | |- context [CheckTearingSupport ?W] =>
      destruct (CheckTearingSupport_quiet P W)
        as (b & os1' & evs1 & Hrun & Hesc & Hdescs & Hwin)
  end.
  rewrite Hrun. clear Hrun. unfold after_calls. simp_world.
  fold (swapChainDesc_with width height n b).
  destruct (handle P (CreateSwapChainForHwnd fac q h
                        (swapChainDesc_with width height n b) NULL NULL) os1')
    as [[hr1 sc1] os1] eqn:E1.
  simp_world. exists b, evs1, hr1, sc1, os1.
  split; [exact Hesc|]. split; [exact Hdescs|]. split; [exact Hwin|].
  destruct (FAILED hr1) eqn:Hf1.
  { left. split; [reflexivity|]. rewrite <- !app_assoc. reflexivity. }
  right. split; [reflexivity|].
  destruct (handle P (MakeWindowAssociation fac h DXGI_MWA_NO_ALT_ENTER) os1)
    as [hr2 os2] eqn:E2.
  simp_world. exists hr2, os2.
  destruct (FAILED hr2) eqn:Hf2.
  { left. split; [reflexivity|]. rewrite <- !app_assoc. reflexivity. }
  right. split; [reflexivity|].
  destruct (handle P (SwapChain1_As_SwapChain4 sc1) os2)
    as [[hr3 sc4] os3] eqn:E3.
  simp_world. exists hr3, sc4, os3.
  destruct (FAILED hr3) eqn:Hf3; [left | right];
    (split; [reflexivity|]); rewrite <- !app_assoc; reflexivity.
Qed.

Lemma added_after_calls (P : Platform) (w : World P) os' evs :
  added w (after_calls w os' evs) = evs.
Proof. apply added_app. reflexivity. Qed.

(** X5. Whatever its arguments, [CreateSwapChain] describes at most one
    swap chain to the platform, and the description carries the caller's
    width, height and buffer count unchanged, the 8-bit RGBA format, no
    stereo, no multisampling ([{1, 0}]), render-target usage, stretch
    scaling, the flip-discard swap effect and either no flag or the tearing
    flag.  The swap chain is requested for the caller's command queue and
    the object's window, windowed (no fullscreen description, no output
    restriction).  The object's fields and the static are left alone. *)
Theorem CreateSwapChain_description
    (P : Platform) (cfg : BuildConfig) (commandQueue : ComPtr)
    (width height bufferCount : Z) (w : World P) :
  let o := CreateSwapChain cfg commandQueue width height bufferCount w in
  let evs := added w (final o) in
  (List.length (swap_chain_descs evs) <= 1)%nat
  /\ (forall d, In d (swap_chain_descs evs) ->
        Width d = width /\ Height d = height /\ BufferCount d = bufferCount
        /\ Format d = DXGI_FORMAT_R8G8B8A8_UNORM
        /\ Stereo d = FALSE
        /\ SampleDesc d = mkSampleDesc 1 0
        /\ BufferUsage d = DXGI_USAGE_RENDER_TARGET_OUTPUT
        /\ Scaling d = DXGI_SCALING_STRETCH
        /\ SwapEffect d = DXGI_SWAP_EFFECT_FLIP_DISCARD
        /\ AlphaMode d = DXGI_ALPHA_MODE_UNSPECIFIED
        /\ (Flags d = 0 \/ Flags d = DXGI_SWAP_CHAIN_FLAG_ALLOW_TEARING))
  /\ (forall e fac q h d fd ro,
        In e evs -> call_of e = CreateSwapChainForHwnd fac q h d fd ro ->
        q = commandQueue /\ h = g_hWnd (this w) /\ fd = NULL /\ ro = NULL)
  /\ this (final o) = this w
  /\ atom (proc (final o)) = atom (proc w).
Proof.
  intros o evs. subst evs.
  destruct (CreateSwapChain_runs P cfg commandQueue width height bufferCount w)
    as (hrf & fac & os0 & Hruns).
  cbv zeta in Hruns. fold o in Hruns.
  assert (Hdesc : forall (b : bool) d,
            In d [swapChainDesc_with width height bufferCount b] ->
            Width d = width /\ Height d = height /\ BufferCount d = bufferCount
            /\ Format d = DXGI_FORMAT_R8G8B8A8_UNORM
            /\ Stereo d = FALSE
            /\ SampleDesc d = mkSampleDesc 1 0
            /\ BufferUsage d = DXGI_USAGE_RENDER_TARGET_OUTPUT
            /\ Scaling d = DXGI_SCALING_STRETCH
            /\ SwapEffect d = DXGI_SWAP_EFFECT_FLIP_DISCARD
            /\ AlphaMode d = DXGI_ALPHA_MODE_UNSPECIFIED
            /\ (Flags d = 0 \/ Flags d = DXGI_SWAP_CHAIN_FLAG_ALLOW_TEARING)).
  { intros b d [<-|[]]. cbn. repeat split. destruct b; [right | left]; reflexivity. }
  assert (Hbind : forall evs1 : list Event,
            Forall (fun e => window_of (call_of e) = None) evs1 ->
            forall e fac' q h d fd ro,
              In e evs1 ->
              call_of e = CreateSwapChainForHwnd fac' q h d fd ro -> False).
  { intros evs1 Hwin e fac' q h d fd ro Hin Hcall.
    rewrite Forall_forall in Hwin. specialize (Hwin e Hin).
    rewrite Hcall in Hwin. discriminate Hwin. }
  destruct Hruns
    as [(_ & ->)
       |(_ & b & evs1 & hr1 & sc1 & os1 & Hesc & Hdescs & Hwin
         & [(_ & ->)
           |(_ & hr2 & os2
             & [(_ & ->)
               |(_ & hr3 & sc4 & os3 & [(_ & ->)|(_ & ->)])])])];
    cbn [final]; rewrite added_after_calls;
    unfold swap_chain_descs in *; cbn [flat_map app];
    rewrite ?flat_map_app, ?Hdescs; cbn;
    (split; [lia|]);
    (split; [first [apply Hdesc | intros d []]|]);
    (split; [|split; reflexivity]);
    intros e fac' q h d fd ro Hin Hcall;
    repeat (destruct Hin as [<- | Hin]; [try discriminate Hcall|]);
    try (apply in_app_or in Hin; destruct Hin as [Hin | Hin];
         [exfalso; exact (Hbind evs1 Hwin _ _ _ _ _ _ _ Hin Hcall)|]);
    repeat (destruct Hin as [<- | Hin]; [try discriminate Hcall|]);
    try destruct Hin;
    cbn in Hcall; injection Hcall as <- <- <- <- <- <-; repeat split.
Qed.

(** X6. [CreateSwapChain] ends without a swap chain exactly when one of
    the four calls it guards with [ThrowIfFailed] failed.  It stops at the
    first such failure: the failed guarded call is the last platform call
    made, and no guarded call before it had failed.  A failure inside the
    tearing query is never escalated.  When a swap chain is returned, it is
    the one the final interface query wrote, and the call before that one
    disabled the Alt+Enter toggle ([DXGI_MWA_NO_ALT_ENTER]) for the object's
    window. *)
Theorem CreateSwapChain_escalates_first_failure
    (P : Platform) (cfg : BuildConfig) (commandQueue : ComPtr)
    (width height bufferCount : Z) (w : World P) :
  let o := CreateSwapChain cfg commandQueue width height bufferCount w in
  let evs := added w (final o) in
  (returned o = None <-> existsb escalated evs = true)
  /\ (returned o = None ->
        exists pre e,
          evs = pre ++ [e] /\ escalated e = true
          /\ existsb escalated pre = false)
  /\ (forall sc, returned o = Some sc ->
        exists pre fac hr2 sc1 hr3,
          evs = pre ++
                [ event (MakeWindowAssociation fac (g_hWnd (this w))
                           DXGI_MWA_NO_ALT_ENTER) hr2;
                  event (SwapChain1_As_SwapChain4 sc1) (hr3, sc) ]
          /\ FAILED hr2 = false /\ FAILED hr3 = false
          /\ existsb escalated pre = false).
Proof.
  intros o evs. subst evs.
  destruct (CreateSwapChain_runs P cfg commandQueue width height bufferCount w)
    as (hrf & fac & os0 & Hruns).
  cbv zeta in Hruns. fold o in Hruns.
  assert (Hpre : forall (evs1 post : list Event) e0,
            existsb escalated evs1 = false ->
            existsb escalated (e0 :: evs1 ++ post)
            = escalated e0 || existsb escalated post).
  { intros evs1 post e0 H1. cbn [existsb]. rewrite existsb_app, H1.
    reflexivity. }
  destruct Hruns
    as [(Hf & Ho)
       |(Hf & b & evs1 & hr1 & sc1 & os1 & Hesc & _ & _
         & [(Hf1 & Ho)
           |(Hf1 & hr2 & os2
             & [(Hf2 & Ho)
               |(Hf2 & hr3 & sc4 & os3 & [(Hf3 & Ho)|(Hf3 & Ho)])])])];
    rewrite Ho; cbn [final returned]; rewrite added_after_calls;
    rewrite ?(Hpre _ _ _ Hesc); unfold escalated in *; cbn;
    rewrite ?Hf, ?Hf1, ?Hf2, ?Hf3; cbn;
    (split; [split; intros; try reflexivity; discriminate|]);
    (split; [(intros Hnone; discriminate Hnone) || intros _
            | intros sc [= <-] || (intros sc Hsc; discriminate Hsc)]).
  - eexists [], _. split; [reflexivity|].
    cbn. rewrite Hf. repeat split.
  - eexists (_ :: evs1), _. split; [reflexivity|].
    cbn [existsb]. rewrite Hesc. cbn. rewrite Hf, Hf1. repeat split.
  - eexists (_ :: evs1 ++ [_]), _.
    split; [cbn; rewrite <- app_assoc; reflexivity|].
    cbn [existsb]. rewrite existsb_app, Hesc. cbn. rewrite Hf, Hf1, Hf2.
    repeat split.
  - eexists (_ :: evs1 ++ [_; _]), _.
    split; [cbn; rewrite <- app_assoc; reflexivity|].
    cbn [existsb]. rewrite existsb_app, Hesc. cbn. rewrite Hf, Hf1, Hf2, Hf3.
    repeat split.
  - eexists (_ :: evs1 ++ [_]), fac, hr2, sc1, hr3.
    split; [cbn; rewrite <- app_assoc; reflexivity|].
    split; [assumption|]. split; [assumption|].
    cbn [existsb]. rewrite existsb_app, Hesc. cbn. rewrite Hf, Hf1.
    reflexivity.
Qed.

(** On the small host: a failing tearing query does not stop the swap chain
    from being created; a host that refuses the window association does. *)
Example CreateSwapChain_without_tearing_on_Desktop :
  let o := CreateSwapChain Desktop.release_build 0x500010 1280 720 2
             (Desktop.with_window
                (Desktop.mkScenario false (E_NOINTERFACE, FALSE) true)) in
  returned o = Some Desktop.the_swap_chain
  /\ existsb (fun e => negb (succeeded e)) (added
        (Desktop.with_window
           (Desktop.mkScenario false (E_NOINTERFACE, FALSE) true))
        (final o)) = true
  /\ existsb escalated (trace (proc (final o))) = false.
Proof. vm_compute. repeat split. Qed.

(** ** A single buffer *)

(** C7. On a platform that enforces the flip-model minimum of two buffers,
    [CreateSwapChain(commandQueue, width, height, 1)] is rejected: it does
    not return a swap chain.  The code itself does not look at the buffer
    count; it hands the platform a flip-discard description with
    [BufferCount = 1], that call fails, and the failure is escalated as
    fatal on the spot (if the factory cannot be created the function ends
    even earlier).  The failed call is the last platform call made: no
    window association and no interface query follow. *)
Theorem CreateSwapChain_single_buffer_rejected
    (P : Platform) (cfg : BuildConfig) (commandQueue : ComPtr)
    (width height : Z) (w : World P)
    (Hmin : enforces_flip_minimum P) :
  let o := CreateSwapChain cfg commandQueue width height 1 w in
  let evs := added w (final o) in
  returned o = None
  /\ (forall d, In d (swap_chain_descs evs) ->
        BufferCount d = 1 /\ SwapEffect d = DXGI_SWAP_EFFECT_FLIP_DISCARD)
  /\ exists pre e,
       evs = pre ++ [e]
       /\ escalated e = true
       /\ existsb escalated pre = false
       /\ ((exists Flags, call_of e = CreateDXGIFactory2 Flags)
           \/ (exists fac d,
                 call_of e = CreateSwapChainForHwnd fac commandQueue
                               (g_hWnd (this w)) d NULL NULL
                 /\ BufferCount d = 1)).
Proof.
  destruct w as [[f rc h] [s t a]]. cbv zeta.
  unfold added. cbn [this proc trace g_hWnd].
  unfold_CreateSwapChain.
  destruct (handle P (CreateDXGIFactory2 _) s) as [[hrf fac] os0] eqn:E0.
  simp_world. destruct (FAILED hrf) eqn:Hf.
  - cbn [returned final proc trace].
    rewrite skipn_app, skipn_all, Nat.sub_diag. cbn [skipn app].
    split; [reflexivity|]. split; [intros d []|].
    eexists [], _. split; [reflexivity|].
    unfold escalated. cbn. rewrite Hf.
    repeat split. left. eexists. reflexivity.
  - match goal with
    | |- context [CheckTearingSupport ?W] =>
        destruct (CheckTearingSupport_quiet P W)
          as (b & os1 & evs1 & Hrun & Hesc & Hdescs & _)
    end.
    rewrite Hrun. clear Hrun. unfold after_calls. simp_world.
    match goal with
    | |- context [handle P (CreateSwapChainForHwnd ?a1 ?a2 ?a3 ?d ?a5 ?a6) ?s1] =>
        destruct (handle P (CreateSwapChainForHwnd a1 a2 a3 d a5 a6) s1)
          as [[hr1 sc1] os2] eqn:E1;
        assert (Hf1 : FAILED hr1 = true)
          by (pose proof (Hmin a1 a2 a3 d a5 a6 s1 (or_introl eq_refl)
                            ltac:(cbn; lia)) as Hr;
              rewrite E1 in Hr; exact Hr)
    end.
    clear E1. simp_world. rewrite Hf1.
    cbn [returned final proc trace].
    rewrite <- !app_assoc, skipn_app, skipn_all, Nat.sub_diag.
    cbn [skipn app].
    split; [reflexivity|]. split.
    + unfold swap_chain_descs in *. cbn [flat_map app].
      rewrite flat_map_app, Hdescs. cbn.
      intros d [<-|[]]. split; reflexivity.
    + eexists (_ :: evs1), _. split; [reflexivity|].
      split; [unfold escalated; cbn; rewrite Hf1; reflexivity|].
      split.
      * cbn [existsb]. rewrite Hesc. unfold escalated. cbn. rewrite Hf.
        reflexivity.
      * right. eexists _, _. split; reflexivity.
Qed.

Lemma CreateSwapChain_single_buffer_rejected_witness :
  enforces_flip_minimum (Desktop.platform Desktop.usual)
  /\ returned (CreateSwapChain Desktop.release_build 0x500010 1280 720 1
                 (Desktop.with_window Desktop.usual)) = None.
Proof.
  split; [exact Desktop_usual_enforces_flip_minimum|].
  apply (CreateSwapChain_single_buffer_rejected
           (Desktop.platform Desktop.usual) Desktop.release_build 0x500010
           1280 720 (Desktop.with_window Desktop.usual)
           Desktop_usual_enforces_flip_minimum).
Defined.

(** ** Window-class registration in full *)

(** The two ways [RegisterWindowClass] can run, up to its assertion. *)
Lemma RegisterWindowClass_runs (P : Platform) cfg hInst (w : World P) :
  let o := RegisterWindowClass cfg hInst w in
  exists (icon : HICON) (cursor : HCURSOR) (iconSm : HICON) (a : ATOM)
         (w' : World P),
    let look := [ event (LoadIcon hInst NULL) icon;
                  event (LoadCursor NULL IDC_ARROW) cursor;
                  event (LoadIcon hInst NULL) iconSm ] in
    let wc := mkWNDCLASSEXW (sizeof_WNDCLASSEX cfg)
                (Z.lor CS_HREDRAW CS_VREDRAW) AddressOf_WndProc 0 0 hInst
                icon cursor (COLOR_WINDOW + 1) NULL WINDOW_CLASS_NAME iconSm in
    o = (if NDEBUG cfg || (0 <? a) then Returned tt w'
         else Aborted "atom > 0" w')
    /\ this w' = this w
    /\ atom (proc w') = Some a
    /\ ((atom (proc w) = Some a
         /\ trace (proc w') = trace (proc w) ++ look)
        \/ (atom (proc w) = None
            /\ trace (proc w')
               = trace (proc w) ++ look ++ [event (RegisterClassExW wc) a])).
Proof.
  destruct w as [[f rc h] [s t [a0|]]]; unfold_prog;
    destruct (handle P (LoadIcon hInst NULL) s) as [icon os1] eqn:E1;
    simp_world;
    destruct (handle P (LoadCursor NULL IDC_ARROW) os1) as [cursor os2] eqn:E2;
    simp_world;
    destruct (handle P (LoadIcon hInst NULL) os2) as [iconSm os3] eqn:E3;
    simp_world.
  - exists icon, cursor, iconSm, a0. eexists. cbv zeta.
    split; [|split; [|split; [|left; split]]].
    + destruct (NDEBUG cfg); [reflexivity|]. cbn [orb].
      destruct (0 <? a0); reflexivity.
    + reflexivity.
    + reflexivity.
    + reflexivity.
    + cbn [proc trace]. rewrite <- !app_assoc. reflexivity.
  - match goal with
    | |- context [handle P (RegisterClassExW ?wc) os3] =>
        destruct (handle P (RegisterClassExW wc) os3) as [a os4] eqn:E4
    end.
    simp_world. exists icon, cursor, iconSm, a. eexists. cbv zeta.
    split; [|split; [|split; [|right; split]]].
    + destruct (NDEBUG cfg); [reflexivity|]. cbn [orb].
      destruct (0 <? a); reflexivity.
    + reflexivity.
    + reflexivity.
    + reflexivity.
    + cbn [proc trace]. rewrite <- !app_assoc. reflexivity.
Qed.

(** X7. [RegisterWindowClass] never throws.  With assertions enabled it
    aborts with the diagnostic "atom > 0" exactly when the atom held by its
    static is not positive; with [NDEBUG] it always returns.  The static is
    initialised by the first call only, so a registration that failed is
    never retried: every later call finds the same atom (and aborts again
    when asserting).  Each call makes the three icon and cursor look-ups,
    also when the class is registered already. *)
Theorem RegisterWindowClass_asserts_the_stored_atom
    (P : Platform) (cfg : BuildConfig) (hInst : HINSTANCE) (w : World P) :
  let o := RegisterWindowClass cfg hInst w in
  exists a : ATOM,
    atom (proc (final o)) = Some a
    /\ (forall a0, atom (proc w) = Some a0 -> a = a0)
    /\ o = (if NDEBUG cfg || (0 <? a) then Returned tt (final o)
            else Aborted "atom > 0" (final o))
    /\ this (final o) = this w
    /\ List.length (added w (final o))
       = match atom (proc w) with Some _ => 3%nat | None => 4%nat end
    /\ registrations (added w (final o))
       = match atom (proc w) with Some _ => 0%nat | None => 1%nat end
    /\ (a <= 0 -> NDEBUG cfg = false ->
          forall hInst' o',
            RegisterWindowClass cfg hInst' (mkWorld o' (proc (final o)))
            = Aborted "atom > 0"
                (final (RegisterWindowClass cfg hInst'
                          (mkWorld o' (proc (final o)))))).
Proof.
  intros o.
  destruct (RegisterWindowClass_runs P cfg hInst w)
    as (icon & cursor & iconSm & a & w' & Hrun & Hthis & Hatom & Hcases).
  cbv zeta in Hrun, Hcases. fold o in Hrun.
  assert (Hfinal : final o = w').
  { rewrite Hrun. destruct (NDEBUG cfg || (0 <? a)); reflexivity. }
  rewrite Hfinal. exists a.
  split; [exact Hatom|].
  split; [destruct Hcases as [[H _]|[H _]]; intros a0 Ha0; congruence|].
  split; [exact Hrun|]. split; [exact Hthis|].
  split; [|split].
  - destruct Hcases as [[-> Ht]|[-> Ht]];
      rewrite (added_app P _ _ _ Ht); reflexivity.
  - destruct Hcases as [[-> Ht]|[-> Ht]];
      rewrite (added_app P _ _ _ Ht); reflexivity.
  - intros Hle HN hInst' o'.
    destruct (RegisterWindowClass_runs P cfg hInst' (mkWorld o' (proc w')))
      as (? & ? & ? & a' & w'' & Hrun' & _ & Hatom' & Hcases').
    cbv zeta in Hrun', Hcases'. cbn [proc] in Hcases'.
    assert (a' = a) by (destruct Hcases' as [[H _]|[H _]]; congruence).
    subst a'. rewrite Hrun', HN.
    assert (Hneg : (0 <? a) = false) by (apply Z.ltb_ge; exact Hle).
    rewrite Hneg. reflexivity.
Qed.

(** On the host where registration fails: the debug build aborts on the
    first call and on the next one, without trying again; the release build
    carries on. *)
Example RegisterWindowClass_on_Faulty :
  let P := Faulty.platform Faulty.unregistered Desktop.usual in
  let w := Faulty.start Faulty.unregistered Desktop.usual in
  let o1 := RegisterWindowClass Desktop.debug_build 0x400000 w in
  let o2 := RegisterWindowClass Desktop.debug_build 0x400000 (final o1) in
  returned o1 = None /\ returned o2 = None
  /\ registrations (trace (proc (final o2))) = 1%nat
  /\ List.length (trace (proc (final o2))) = 7%nat
  /\ returned (RegisterWindowClass Desktop.release_build 0x400000 w) = Some tt.
Proof. vm_compute. repeat split. Qed.

Lemma CreateWindow_class_name (P : Platform) cfg hInst title width height
      (w : World P) :
  window_class_names
    (added w (final (CreateWindow cfg hInst title width height w)))
  = [WINDOW_CLASS_NAME].
Proof.
  destruct (CreateWindow_runs P cfg hInst title width height w)
    as (sw & sh & adj & hWnd & os4 & Hruns).
  cbv zeta in Hruns.
  destruct Hruns as [(_ & _ & ->) | (_ & saved & os5 & ->)]; cbn [final];
    (erewrite added_app; [|cbn [proc trace]; reflexivity]); reflexivity.
Qed.

(** X8. The descriptor that [RegisterWindowClass] registers names the class
    [WINDOW_CLASS_NAME], the caller's module instance and [WndProc], has no
    menu and no extra bytes, and carries the very icon and cursor handles
    that this call's look-ups returned.  [CreateWindow] creates its window
    with that same class name, whatever its arguments, exactly once. *)
Theorem registered_class_is_the_created_class
    (P : Platform) (cfg : BuildConfig) (hInst : HINSTANCE) (w : World P) :
  let evs := added w (final (RegisterWindowClass cfg hInst w)) in
  forall wc, In wc (class_descriptors evs) ->
    lpszClassName wc = WINDOW_CLASS_NAME
    /\ wc_hInstance wc = hInst
    /\ lpfnWndProc wc = AddressOf_WndProc
    /\ wc_cbSize wc = sizeof_WNDCLASSEX cfg
    /\ lpszMenuName wc = NULL /\ cbClsExtra wc = 0 /\ cbWndExtra wc = 0
    /\ In (event (LoadIcon hInst NULL) (hIcon wc)) evs
    /\ In (event (LoadCursor NULL IDC_ARROW) (hCursor wc)) evs
    /\ In (event (LoadIcon hInst NULL) (hIconSm wc)) evs
    /\ (forall (w' : World P) cfg' hInst' title width height,
          window_class_names
            (added w' (final (CreateWindow cfg' hInst' title width height w')))
          = [lpszClassName wc]).
Proof.
  intros evs wc. subst evs.
  destruct (RegisterWindowClass_runs P cfg hInst w)
    as (icon & cursor & iconSm & a & w' & Hrun & _ & _ & Hcases).
  cbv zeta in Hrun, Hcases.
  assert (Hfinal : final (RegisterWindowClass cfg hInst w) = w').
  { rewrite Hrun. destruct (NDEBUG cfg || (0 <? a)); reflexivity. }
  rewrite Hfinal.
  destruct Hcases as [[_ Ht]|[_ Ht]]; rewrite (added_app P _ _ _ Ht);
    cbn; intros Hin; [destruct Hin|].
  destruct Hin as [<-|[]]. cbn.
  repeat split; auto 6.
  intros. apply CreateWindow_class_name.
Qed.

Lemma registered_class_is_the_created_class_witness :
  let w := Desktop.start Desktop.usual in
  let evs := added w (final (RegisterWindowClass Desktop.debug_build 0x400000 w)) in
  exists wc, In wc (class_descriptors evs)
             /\ lpszClassName wc = WINDOW_CLASS_NAME.
Proof.
  intros w evs.
  assert (Hin : In (mkWNDCLASSEXW 80 3 AddressOf_WndProc 0 0 0x400000 NULL
                      0x10003 6 NULL WINDOW_CLASS_NAME NULL)
                   (class_descriptors evs))
    by (vm_compute; left; reflexivity).
  eexists. split; [exact Hin|].
  apply (registered_class_is_the_created_class
           _ Desktop.debug_build 0x400000 w _ Hin).
Defined.

(** ** Window creation in full *)

(** X9. When [CreateWindow] returns a handle, the object holds it:
    [g_hWnd] is that handle and [GetHWND] returns it.  The handle is the one
    [CreateWindowExW] answered, and the last platform call asked for that
    window's rectangle: [g_WindowRect] is the answer if there was one and
    is unchanged otherwise.  [g_Fullscreen] and the static are not touched,
    and with assertions enabled the handle is not null. *)
Theorem CreateWindow_records_handle_and_rect
    (P : Platform) (cfg : BuildConfig) (hInst : HINSTANCE) (title : string)
    (width height : Z) (w : World P) (h : HWND)
    (Hret : returned (CreateWindow cfg hInst title width height w) = Some h) :
  let w1 := final (CreateWindow cfg hInst title width height w) in
  g_hWnd (this w1) = h
  /\ returned (GetHWND w1) = Some h
  /\ g_Fullscreen (this w1) = g_Fullscreen (this w)
  /\ atom (proc w1) = atom (proc w)
  /\ (NDEBUG cfg = false -> h <> NULL)
  /\ exists (pre : list Event) (e : Event) (saved : option RECT),
       added w w1 = pre ++ [e; event (GetWindowRect h) saved]
       /\ List.length pre = 3%nat
       /\ created_handle e = Some h
       /\ (forall r, saved = Some r -> g_WindowRect (this w1) = r)
       /\ (saved = None -> g_WindowRect (this w1) = g_WindowRect (this w)).
Proof.
  destruct (CreateWindow_runs P cfg hInst title width height w)
    as (sw & sh & adj & hWnd & os4 & Hruns).
  cbv zeta in Hruns.
  destruct Hruns as [(_ & _ & Hrun) | (Hok & saved & os5 & Hrun)];
    rewrite Hrun in *; [discriminate Hret|].
  injection Hret as <-. cbv zeta. cbn [final].
  split; [reflexivity|]. split; [reflexivity|]. split; [reflexivity|].
  split; [reflexivity|].
  split; [intros HN; destruct Hok as [HN' | Hnn]; congruence|].
  eexists [_; _; _], _, saved.
  split; [erewrite added_app; [|cbn [proc trace]; reflexivity]; reflexivity|].
  split; [reflexivity|]. split; [reflexivity|].
  cbn [this g_WindowRect]. split.
  - intros r ->. reflexivity.
  - intros ->. reflexivity.
Qed.

Lemma CreateWindow_records_handle_and_rect_witness :
  let o := CreateWindow Desktop.debug_build 0x400000 "Test" 1280 720
             (Desktop.start Desktop.usual) in
  returned o = Some Desktop.the_window
  /\ g_hWnd (this (final o)) = Desktop.the_window.
Proof.
  intros o.
  assert (Hret : returned o = Some Desktop.the_window)
    by (vm_compute; reflexivity).
  split; [exact Hret|].
  apply (CreateWindow_records_handle_and_rect _ _ _ _ _ _ _ _ Hret).
Defined.

(** X10. With [NDEBUG] defined [CreateWindow] cannot abort: it always
    returns the handle [CreateWindowExW] answered, the null handle
    included, after asking for the rectangle of that window. *)
Theorem CreateWindow_under_NDEBUG_returns_the_answer
    (P : Platform) (cfg : BuildConfig) (hInst : HINSTANCE) (title : string)
    (width height : Z) (w : World P) (HN : NDEBUG cfg = true) :
  let o := CreateWindow cfg hInst title width height w in
  exists (h : HWND) (pre : list Event) (e : Event) (saved : option RECT),
    o = Returned h (final o)
    /\ added w (final o) = pre ++ [e; event (GetWindowRect h) saved]
    /\ List.length pre = 3%nat
    /\ created_handle e = Some h
    /\ g_hWnd (this (final o)) = h.
Proof.
  destruct (CreateWindow_runs P cfg hInst title width height w)
    as (sw & sh & adj & hWnd & os4 & Hruns).
  cbv zeta in Hruns.
  destruct Hruns as [(HN' & _) | (_ & saved & os5 & Hrun)]; [congruence|].
  cbv zeta. rewrite Hrun. cbn [final].
  exists hWnd. eexists [_; _; _], _, saved.
  split; [reflexivity|].
  split; [erewrite added_app; [|cbn [proc trace]; reflexivity]; reflexivity|].
  repeat split.
Qed.

Lemma CreateWindow_under_NDEBUG_returns_the_answer_witness :
  let o := CreateWindow Desktop.release_build 0x400000 "Test" 1280 720
             (Desktop.start Desktop.no_window) in
  NDEBUG Desktop.release_build = true
  /\ exists h, o = Returned h (final o) /\ g_hWnd (this (final o)) = h.
Proof.
  intros o. split; [reflexivity|].
  destruct (CreateWindow_under_NDEBUG_returns_the_answer
              (Desktop.platform Desktop.no_window) Desktop.release_build
              0x400000 "Test"%string 1280 720
              (Desktop.start Desktop.no_window) eq_refl)
    as (h & _ & _ & _ & Hrun & _ & _ & _ & Hh).
  exists h. split; assumption.
Defined.

(** How the clamped half-difference places an extent [size] within
    [screen]. *)
Lemma centred_or_clamped (screen size : Z) :
  0 <= screen < Int32.half -> 0 <= size < Int32.half ->
  let pos := Z.max 0 (Int32.div (Int32.sub screen size) 2) in
  (size <= screen ->
     pos + size <= screen /\ 0 <= (screen - (pos + size)) - pos <= 1)
  /\ (screen <= size -> pos = 0).
Proof.
  intros Hs Hz pos.
  assert (Hr : Int32.in_range (screen - size))
    by (unfold Int32.in_range, Int32.half in *; lia).
  assert (Hpos : pos = Z.max 0 ((screen - size) / 2)).
  { subst pos. unfold Int32.sub.
    rewrite (Int32_wrap_id _ Hr), (Int32_div_2 _ Hr). apply clamp_quot_div. }
  pose proof (Z.div_mod (screen - size) 2 ltac:(lia)) as Hdm.
  pose proof (Z.mod_pos_bound (screen - size) 2 ltac:(lia)) as Hmb.
  rewrite Hpos. split; intros Hle; lia.
Qed.

(** X11. What the placement of [CreateWindow] achieves.  For a screen
    metric and an outer window extent that are non-negative: if the window
    fits, it lies within the screen and the margin after it exceeds the
    margin before it by at most one pixel; if it does not fit, it starts at
    coordinate [0].  This holds for both axes. *)
Theorem CreateWindow_centres_a_window_that_fits
    (P : Platform) (cfg : BuildConfig) (hInst : HINSTANCE) (title : string)
    (width height : Z) (w : World P) :
  exists (screenWidth screenHeight : Z) (adjusted : option RECT)
         (X Y windowWidth windowHeight : Z) (hWnd : HWND) (rest : list Event),
    added w (final (CreateWindow cfg hInst title width height w))
    = [ event (GetSystemMetrics SM_CXSCREEN) screenWidth;
        event (GetSystemMetrics SM_CYSCREEN) screenHeight;
        event (AdjustWindowRect
                 (mkRECT 0 0 (Int32.wrap width) (Int32.wrap height))
                 WS_OVERLAPPEDWINDOW FALSE) adjusted;
        event (CreateWindowExW NULL WINDOW_CLASS_NAME title
                 WS_OVERLAPPEDWINDOW X Y windowWidth windowHeight
                 NULL NULL hInst NULL) hWnd ] ++ rest
    /\ (0 <= screenWidth < Int32.half -> 0 <= windowWidth ->
        (windowWidth <= screenWidth ->
           X + windowWidth <= screenWidth
           /\ 0 <= (screenWidth - (X + windowWidth)) - X <= 1)
        /\ (screenWidth <= windowWidth -> X = 0))
    /\ (0 <= screenHeight < Int32.half -> 0 <= windowHeight ->
        (windowHeight <= screenHeight ->
           Y + windowHeight <= screenHeight
           /\ 0 <= (screenHeight - (Y + windowHeight)) - Y <= 1)
        /\ (screenHeight <= windowHeight -> Y = 0))
    /\ (adjusted = None ->
        windowWidth = Int32.wrap width /\ windowHeight = Int32.wrap height).
Proof.
  destruct (CreateWindow_runs P cfg hInst title width height w)
    as (sw & sh & adj & hWnd & os4 & Hruns).
  cbv zeta in Hruns.
  set (windowRect := saved_rect adj
                       (mkRECT 0 0 (Int32.wrap width) (Int32.wrap height)))
    in Hruns.
  set (ww := Int32.sub (right windowRect) (left windowRect)) in Hruns.
  set (wh := Int32.sub (bottom windowRect) (top windowRect)) in Hruns.
  exists sw, sh, adj,
    (Z.max 0 (Int32.div (Int32.sub sw ww) 2)),
    (Z.max 0 (Int32.div (Int32.sub sh wh) 2)), ww, wh, hWnd.
  assert (Hrange : forall a b, 0 <= Int32.sub a b -> 0 <= Int32.sub a b < Int32.half).
  { intros a b H0. pose proof (Int32_wrap_range (a - b)) as Hr.
    unfold Int32.in_range in Hr. unfold Int32.sub. unfold Int32.sub in H0. lia. }
  assert (Hbare : adj = None -> ww = Int32.wrap width /\ wh = Int32.wrap height).
  { intros ->. subst ww wh windowRect. cbn [saved_rect right left bottom top].
    unfold Int32.sub. rewrite !Z.sub_0_r.
    rewrite !(Int32_wrap_id _ (Int32_wrap_range _)). split; reflexivity. }
  destruct Hruns as [(_ & _ & ->) | (_ & saved & os5 & ->)]; cbn [final];
    eexists;
    (split; [erewrite added_app; [|cbn [proc trace]; reflexivity];
             reflexivity|]);
    (split; [intros Hs H0; apply centred_or_clamped;
             [assumption | apply Hrange; assumption]|]);
    (split; [intros Hs H0; apply centred_or_clamped;
             [assumption | apply Hrange; assumption]|]);
    exact Hbare.
Qed.

(** On the small host: the 1296 x 759 window leaves 312 pixels on either
    side and 160 above, 161 below; without the chrome insets the window is
    created with the bare client size. *)
Example CreateWindow_margins_on_Desktop :
  let position P (w : World P) :=
    flat_map (fun e => match call_of e with
                       | CreateWindowExW _ _ _ _ X Y nWidth nHeight _ _ _ _ =>
                           [(X, 1920 - (X + nWidth), Y, 1080 - (Y + nHeight))]
                       | _ => []
                       end)
      (trace (proc (final (CreateWindow Desktop.debug_build 0x400000 "Test"
                             1280 720 w)))) in
  position _ (Desktop.start Desktop.usual) = [(312, 312, 160, 161)]
  /\ position _ (Faulty.start Faulty.bare Desktop.usual)
     = [(320, 320, 180, 180)].
Proof. vm_compute. repeat split. Qed.

(** ** The tearing query in full *)

(** X12. [CheckTearingSupport] makes between one and three platform calls
    and stops at the first one that fails.  It returns [true] exactly when
    it made all three, none failed, and the value left in the buffer is
    [TRUE] (the value 1: any other value, zero or not, gives [false]).  The
    object and the static are left alone. *)
Theorem CheckTearingSupport_true_iff (P : Platform) (w : World P) :
  let o := CheckTearingSupport w in
  let evs := added w (final o) in
  (returned o = Some true
   <-> List.length evs = 3%nat /\ forallb succeeded evs = true
       /\ existsb reports_tearing evs = true)
  /\ (1 <= List.length evs <= 3)%nat
  /\ (forallb succeeded evs = false ->
      exists pre e, evs = pre ++ [e] /\ succeeded e = false
                    /\ forallb succeeded pre = true)
  /\ (List.length evs < 3 -> forallb succeeded evs = false)%nat
  /\ this (final o) = this w
  /\ atom (proc (final o)) = atom (proc w).
Proof.
  intros o evs. subst o evs.
  destruct (CheckTearingSupport_runs P w) as (b & os' & evs & Hrun & Hcases).
  rewrite Hrun. cbn [final returned].
  erewrite added_app; [|cbn [proc trace]; reflexivity].
  assert (Hand : forall x : bool, x && true = x)
    by (intros x; apply Bool.andb_true_r).
  destruct Hcases
    as [(hr4 & f4 & -> & H4 & ->)
       |[(hr4 & f4 & hr5 & f5 & -> & H4 & H5 & ->)
        |(hr4 & f4 & hr5 & f5 & hr & v & -> & H4 & H5 & ->)]];
    unfold succeeded, reports_tearing; cbn -[SUCCEEDED FAILED];
    rewrite ?Hand, ?H4, ?H5; cbn -[SUCCEEDED FAILED].
  - split; [split; [discriminate | intros (Hl & _); discriminate Hl]|].
    split; [lia|]. split; [|split; [reflexivity|split; reflexivity]].
    intros _. exists [], (event CreateDXGIFactory1 (hr4, f4)).
    cbn -[SUCCEEDED FAILED]. auto.
  - split; [split; [discriminate | intros (Hl & _); discriminate Hl]|].
    split; [lia|]. split; [|split; [reflexivity|split; reflexivity]].
    intros _. eexists [_], (event (Factory4_As_Factory5 f4) (hr5, f5)).
    repeat split; cbn -[SUCCEEDED FAILED]; rewrite ?H4, ?H5; auto.
  - rewrite FAILED_SUCCEEDED, Bool.negb_involutive, ?Bool.orb_false_r.
    split; [|split; [lia|split; [|split; [lia|split; reflexivity]]]].
    + split.
      * intros [= Hb]. apply andb_prop in Hb as [Hs Hv]. auto.
      * intros (_ & Hs & Hv). rewrite Hs, Hv. reflexivity.
    + intros Hs. eexists [_; _], (event (CheckFeatureSupport _ _ _ _) (hr, v)).
      repeat split; cbn -[SUCCEEDED FAILED]; rewrite ?H4, ?H5; auto.
Qed.

(** ** Which window the calls address *)

(** X13. The member functions never address another window than the
    object's own: every window-addressed platform call made by any sequence
    of [SetFullscreen] calls, by [Show] and by [CreateSwapChain] names
    [g_hWnd]; [RegisterWindowClass] and [CheckTearingSupport] address no
    window at all. *)
Theorem only_the_own_window_is_addressed (P : Platform) (w : World P) :
  let own e := forall h, window_of (call_of e) = Some h -> h = g_hWnd (this w) in
  let none e := window_of (call_of e) = None in
  (forall args, Forall own (added w (SetFullscreen_seq args w)))
  /\ Forall own (added w (final (Show w)))
  /\ (forall cfg q width height n,
        Forall own (added w (final (CreateSwapChain cfg q width height n w))))
  /\ (forall cfg hInst,
        Forall none (added w (final (RegisterWindowClass cfg hInst w))))
  /\ Forall none (added w (final (CheckTearingSupport w))).
Proof.
  intros own none. subst own none.
  split; [|split; [|split; [|split]]].
  - intros args.
    destruct (SetFullscreen_seq_added P args w) as (evs & Ht & _ & Ha).
    rewrite (added_app P _ _ _ Ht). exact Ha.
  - destruct (Show_added P w) as (shown & os' & ->). cbn [final].
    erewrite added_app; [|cbn [proc trace]; reflexivity].
    repeat constructor. cbn. congruence.
  - intros cfg q width height n.
    destruct (CreateSwapChain_runs P cfg q width height n w)
      as (hrf & fac & os0 & Hruns).
    cbv zeta in Hruns.
    destruct Hruns
      as [(_ & ->)
         |(_ & b & evs1 & hr1 & sc1 & os1 & _ & _ & Hwin
           & [(_ & ->)
             |(_ & hr2 & os2
               & [(_ & ->)
                 |(_ & hr3 & sc4 & os3 & [(_ & ->)|(_ & ->)])])])];
      cbn [final]; rewrite added_after_calls;
      constructor; try (cbn; congruence);
      try (apply Forall_app; split;
           [eapply Forall_impl; [|exact Hwin]; cbn; congruence|]);
      repeat constructor; cbn; congruence.
  - intros cfg hInst.
    destruct (RegisterWindowClass_runs P cfg hInst w)
      as (icon & cursor & iconSm & a & w' & Hrun & _ & _ & Hcases).
    cbv zeta in Hrun, Hcases.
    assert (Hfinal : final (RegisterWindowClass cfg hInst w) = w').
    { rewrite Hrun. destruct (NDEBUG cfg || (0 <? a)); reflexivity. }
    rewrite Hfinal.
    destruct Hcases as [[_ Ht]|[_ Ht]]; rewrite (added_app P _ _ _ Ht);
      repeat constructor.
  - destruct (CheckTearingSupport_quiet P w)
      as (b & os' & evs & -> & _ & _ & Hwin).
    cbn [final]. rewrite added_after_calls. exact Hwin.
Qed.
